(** * E-Siksha backend: account service, status reporter and content lookup

    A shallow embedding of the request handlers of

    - [src/backend/server.js] (module [Legacy] below): the first Express
      application, with the plain user schema;
    - the second Express application, stored after the video router in
      [src/backend/routes/videoRoutes.js] (module [Api] below): the one with
      the database status middleware, the schema with setters and validators
      and the [lastLogin] field;
    - the video router at the head of [src/backend/routes/videoRoutes.js]
      (module [VideoRoutes]).

    Conventions of the embedding.

    - A JavaScript string is a [string]: a sequence of code units below 256
      (the Latin-1 range), on which [toLowerCase], [trim], [length] and the
      regular expression class [\S] are the ECMAScript ones.
    - A field of a JSON request body is absent ([undefined]), [null] or a
      string in the handlers of [Legacy] and [Api]: the input type of the
      operations of the account service. Module [Wide] runs the two
      registration handlers on fields of any JSON type, where they differ
      from what they do on text.
    - A [throw] is a value of the [result] monad; [try]/[catch] is a match on
      it.
    - A users collection is the list of its documents in insertion order.
      [findOne] returns the first match; the unique index on [email] makes an
      insertion fail with the duplicate key error, code 11000.
    - A handler is a function of the clock reading it takes ([Date.now],
      [new Date()]), of the collection and of the request body, to the
      collection it leaves and the response it sends. *)

From Stdlib Require Import ZArith NArith List String Ascii Bool Lia.
From Stdlib Require Import Permutation.
Import ListNotations.

Local Open Scope string_scope.
Local Open Scope Z_scope.

(* ================================================================== *)
(** ** JavaScript values, strings and exceptions *)

Module JS.

(** The values a field of [req.body] takes. *)
Inductive jsval : Type :=
| undefined
| null
| str (s : string).

(** [!!v] *)
Definition truthy (v : jsval) : bool :=
  match v with
  | str s => negb (s =? "")%string
  | _ => false
  end.

(** [a === b] *)
Definition strict_eq (a b : jsval) : bool :=
  match a, b with
  | undefined, undefined => true
  | null, null => true
  | str s, str t => (s =? t)%string
  | _, _ => false
  end.

(** An exception object: [name], [code], [message], and for a Mongoose
    validation error the messages of the values of [errors]. *)
Record js_error : Type := mk_error {
  e_name : string;
  e_code : option Z;
  e_message : string;
  e_errors : list string
}.

Inductive result (A : Type) : Type :=
| Ok (a : A)
| Throw (e : js_error).
Arguments Ok {A} a.
Arguments Throw {A} e.

Definition bind {A B : Type} (c : result A) (k : A -> result B) : result B :=
  match c with
  | Ok a => k a
  | Throw e => Throw e
  end.

Definition TypeError (property : string) : js_error :=
  {| e_name := "TypeError";
     e_code := None;
     e_message := "Cannot read properties of undefined (reading '"
                    ++ property ++ "')";
     e_errors := [] |}.

(** WhiteSpace and LineTerminator code units below 256: TAB, LF, VT, FF,
    CR, SP and NBSP. They are what [trim] strips and what [\s] matches. *)
Definition is_space (c : ascii) : bool :=
  let n := N_of_ascii c in
  (((9 <=? n) && (n <=? 13)) || (n =? 32) || (n =? 160))%N.

(** Code units below 256 with a lower case mapping: A-Z, and the Latin-1
    capitals U+00C0-U+00DE without the multiplication sign U+00D7. *)
Definition is_upper (c : ascii) : bool :=
  let n := N_of_ascii c in
  (((65 <=? n) && (n <=? 90))
   || ((192 <=? n) && (n <=? 222) && negb (n =? 215)))%N.

Definition lower_char (c : ascii) : ascii :=
  if is_upper c then ascii_of_N (N_of_ascii c + 32) else c.

(** [s.toLowerCase()] *)
Fixpoint toLowerCase (s : string) : string :=
  match s with
  | EmptyString => EmptyString
  | String c r => String (lower_char c) (toLowerCase r)
  end.

(** [s.trimStart()] *)
Fixpoint trimStart (s : string) : string :=
  match s with
  | EmptyString => EmptyString
  | String c r => if is_space c then trimStart r else s
  end.

(** [s.trimEnd()] *)
Fixpoint trimEnd (s : string) : string :=
  match s with
  | EmptyString => EmptyString
  | String c r =>
      match trimEnd r with
      | EmptyString => if is_space c then EmptyString else String c EmptyString
      | t => String c t
      end
  end.

(** [s.trim()] *)
Definition trim (s : string) : string := trimEnd (trimStart s).

(** [s.length] *)
Definition length (s : string) : Z := Z.of_nat (String.length s).

(** Method calls and property reads on a field of the body: on [undefined]
    and [null] they throw. *)
Definition call_toLowerCase (v : jsval) : result string :=
  match v with
  | str s => Ok (toLowerCase s)
  | _ => Throw (TypeError "toLowerCase")
  end.

Definition call_trim (v : jsval) : result string :=
  match v with
  | str s => Ok (trim s)
  | _ => Throw (TypeError "trim")
  end.

Definition get_length (v : jsval) : result Z :=
  match v with
  | str s => Ok (length s)
  | _ => Throw (TypeError "length")
  end.

(** [arr.join(sep)] *)
Fixpoint join (sep : string) (l : list string) : string :=
  match l with
  | [] => ""
  | [x] => x
  | x :: r => x ++ sep ++ join sep r
  end.

(** No code unit of [s] is white space: [/^\S*$/.test(s)]. *)
Fixpoint no_space (s : string) : bool :=
  match s with
  | EmptyString => true
  | String c r => negb (is_space c) && no_space r
  end.

End JS.

Notation "x <- c ;; k" := (JS.bind c (fun x => k))
  (at level 61, c at next level, right associativity).

(* ================================================================== *)
(** ** Regular expressions, matched by derivatives *)

Module Regex.

Inductive regex : Type :=
| Void                       (* matches nothing *)
| Eps                        (* the empty string *)
| Chr (c : ascii)            (* a literal code unit *)
| NonSpace                   (* [\S] *)
| Seq (r1 r2 : regex)
| Alt (r1 r2 : regex)
| Star (r : regex).

(** [r+] *)
Definition Plus (r : regex) : regex := Seq r (Star r).

Fixpoint nullable (r : regex) : bool :=
  match r with
  | Void => false
  | Eps => true
  | Chr _ => false
  | NonSpace => false
  | Seq r1 r2 => nullable r1 && nullable r2
  | Alt r1 r2 => nullable r1 || nullable r2
  | Star _ => true
  end.

Fixpoint deriv (a : ascii) (r : regex) : regex :=
  match r with
  | Void => Void
  | Eps => Void
  | Chr c => if Ascii.eqb a c then Eps else Void
  | NonSpace => if JS.is_space a then Void else Eps
  | Seq r1 r2 =>
      if nullable r1
      then Alt (Seq (deriv a r1) r2) (deriv a r2)
      else Seq (deriv a r1) r2
  | Alt r1 r2 => Alt (deriv a r1) (deriv a r2)
  | Star r1 => Seq (deriv a r1) (Star r1)
  end.

(** [/^r$/.test(s)] *)
Fixpoint test (r : regex) (s : string) : bool :=
  match s with
  | EmptyString => nullable r
  | String a s' => test (deriv a r) s'
  end.

(** The strings a regular expression denotes. *)
Inductive matches : regex -> string -> Prop :=
| m_eps : matches Eps EmptyString
| m_chr (c : ascii) : matches (Chr c) (String c EmptyString)
| m_nonspace (c : ascii) :
    JS.is_space c = false -> matches NonSpace (String c EmptyString)
| m_seq (r1 r2 : regex) (s1 s2 : string) :
    matches r1 s1 -> matches r2 s2 -> matches (Seq r1 r2) (s1 ++ s2)
| m_alt_l (r1 r2 : regex) (s : string) :
    matches r1 s -> matches (Alt r1 r2) s
| m_alt_r (r1 r2 : regex) (s : string) :
    matches r2 s -> matches (Alt r1 r2) s
| m_star_nil (r : regex) : matches (Star r) EmptyString
| m_star_cons (r : regex) (s1 s2 : string) :
    matches r s1 -> matches (Star r) s2 -> matches (Star r) (s1 ++ s2).

End Regex.

(* ================================================================== *)
(** ** JSON bodies and HTTP responses *)

Module Http.

(** What [res.json] serialises. A field whose value is [undefined] is left
    out of the object, as [JSON.stringify] does. *)
#[local] Set Warnings "-register-all".
Inductive json : Type :=
| JNull
| JBool (b : bool)
| JNum (z : Z)
| JStr (s : string)
| JDate (ms : Z)
| JOid (n : N)
| JObj (fields : list (string * json)).
#[local] Set Warnings "register-all".

Record response : Type := mk_response {
  status : Z;
  body : json
}.

Fixpoint assoc (k : string) (l : list (string * json)) : option json :=
  match l with
  | [] => None
  | (k', v) :: r => if (k =? k')%string then Some v else assoc k r
  end.

(** The property [k] of a serialised object. *)
Definition field (k : string) (j : json) : option json :=
  match j with
  | JObj l => assoc k l
  | _ => None
  end.

Definition keys (j : json) : list string :=
  match j with
  | JObj l => map fst l
  | _ => []
  end.

Definition message (r : response) : option json := field "message" (body r).

(** The [user] object of a response. *)
Definition user_view (r : response) : option json := field "user" (body r).

End Http.

(* ================================================================== *)
(** ** The users collection *)

Module Mongo.

(** A document of the [users] collection. [_id] is the ObjectId, read as
    the unsigned integer its twelve bytes spell; [createdAt] and
    [lastLogin] are dates in milliseconds. The first schema has no
    [lastLogin]: its documents carry none. *)
Record user : Type := mk_user {
  _id : N;
  fullName : string;
  email : string;
  password : string;
  createdAt : Z;
  lastLogin : option Z
}.

Definition collection : Type := list user.

(** [User.findOne({ email: key })], the filter already cast. *)
Definition findOne_email (db : collection) (key : string) : option user :=
  find (fun u => (email u =? key)%string) db.

(** The ObjectId of a new document. The driver generates it in the
    process, from the clock, a random value and a counter; what the
    handlers rely on is that it is not in the collection, and this stand-in
    gives the least identifier greater than every one stored. Two
    processes do not generate the same. *)
Definition new_ObjectId (db : collection) : N :=
  N.succ (fold_right N.max 0%N (map _id db)).

Definition duplicate_key : JS.js_error :=
  {| JS.e_name := "MongoServerError";
     JS.e_code := Some 11000;
     JS.e_message := "E11000 duplicate key error collection: users index: email_1";
     JS.e_errors := [] |}.

(** The insertion of a new document under the unique index on [email]. *)
Definition insertOne (db : collection) (doc : user) : JS.result collection :=
  if existsb (fun u => (email u =? email doc)%string) db
  then JS.Throw duplicate_key
  else JS.Ok (db ++ [doc])%list.

(** [updateOne({ _id: id }, { $set: { lastLogin: t } })]: what saving a
    loaded document whose only modified path is [lastLogin] sends. *)
Fixpoint set_lastLogin (db : collection) (id : N) (t : Z) : collection :=
  match db with
  | [] => []
  | u :: r =>
      if (_id u =? id)%N
      then mk_user (_id u) (fullName u) (email u) (password u) (createdAt u)
                   (Some t) :: r
      else u :: set_lastLogin r id t
  end.

Definition ValidationError (model : string) (errors : list (string * string))
  : JS.js_error :=
  {| JS.e_name := "ValidationError";
     JS.e_code := None;
     JS.e_message :=
       model ++ " validation failed: "
         ++ JS.join ", " (map (fun pm => fst pm ++ ": " ++ snd pm) errors);
     JS.e_errors := map snd errors |}.

(** [User.countDocuments()] *)
Definition countDocuments (db : collection) : Z := Z.of_nat (List.length db).

End Mongo.

(* ================================================================== *)
(** ** Request bodies *)

Module Req.

(** [req.body], as the handlers read it:
    [const { fullName, email, password, confirmPassword } = req.body] for
    the registration, [const { email, password } = req.body] for the
    login. *)
Record body : Type := mk_body {
  fullName : JS.jsval;
  email : JS.jsval;
  password : JS.jsval;
  confirmPassword : JS.jsval
}.

(** The string a path holds once its [required] validator has passed. *)
Definition string_of (v : JS.jsval) : string :=
  match v with
  | JS.str s => s
  | _ => ""
  end.

End Req.

(* ================================================================== *)
(** ** [src/backend/server.js] *)

Module Legacy.

Import Http.

(** [userSchema]: three required strings, [email] unique, [createdAt]
    defaulting to [Date.now]. [required] fails on a missing, null or empty
    value. *)
Definition required (path : string) (v : JS.jsval) : list (string * string) :=
  if JS.truthy v then [] else [(path, "Path `" ++ path ++ "` is required.")].

Definition validate (fullName email password : JS.jsval)
  : list (string * string) :=
  (required "fullName" fullName ++ required "email" email
     ++ required "password" password)%list.

(** [new User({ fullName, email, password })], at clock reading [now]. *)
Definition new_User (now : Z) (db : Mongo.collection)
    (fullName email password : JS.jsval) : Mongo.user :=
  Mongo.mk_user (Mongo.new_ObjectId db) (Req.string_of fullName)
                (Req.string_of email) (Req.string_of password) now None.

(** [newUser.save()]: validation, then the insertion. *)
Definition save (db : Mongo.collection) (fullName email password : JS.jsval)
    (newUser : Mongo.user) : JS.result Mongo.collection :=
  match validate fullName email password with
  | [] => Mongo.insertOne db newUser
  | errors => JS.Throw (Mongo.ValidationError "User" errors)
  end.

(** [User.findOne({ email })]: no document lacks its email. *)
Definition findOne (db : Mongo.collection) (email : JS.jsval)
  : option Mongo.user :=
  match email with
  | JS.str key => Mongo.findOne_email db key
  | _ => None
  end.

Definition failure (code : Z) (msg : string) : response :=
  mk_response code (JObj [("success", JBool false); ("message", JStr msg)]).

(** The [catch] of the registration handler. *)
Definition register_catch (error : JS.js_error) : response :=
  match JS.e_code error with
  | Some 11000 => failure 400 "Email already registered"
  | _ =>
      mk_response 500
        (JObj [("success", JBool false);
               ("message", JStr "Server error during registration");
               ("error", JStr (JS.e_message error))])
  end.

(** From [new User] on: the part of the handler that runs after the
    existence query has answered, on the collection as it is then. *)
Definition register_create (now : Z) (db : Mongo.collection)
    (fullName email password : JS.jsval)
  : JS.result (Mongo.collection * response) :=
  let newUser := new_User now db fullName email password in
  db' <- save db fullName email password newUser ;;
  JS.Ok (db',
         mk_response 201
           (JObj [("success", JBool true);
                  ("message", JStr "Registration successful!");
                  ("user", JObj [("id", JOid (Mongo._id newUser));
                                 ("fullName", JStr (Mongo.fullName newUser));
                                 ("email", JStr (Mongo.email newUser))])])).

(** The body of the [try]. The handler awaits twice: [db0] is the
    collection as the existence query finds it, [db] the collection as the
    insertion finds it. *)
Definition register_try (now : Z) (db0 db : Mongo.collection)
    (b : Req.body) : JS.result (Mongo.collection * response) :=
  let fullName := Req.fullName b in
  let email := Req.email b in
  let password := Req.password b in
  let confirmPassword := Req.confirmPassword b in
  if negb (JS.truthy fullName) || negb (JS.truthy email)
     || negb (JS.truthy password) || negb (JS.truthy confirmPassword)
  then JS.Ok (db, failure 400 "All fields are required")
  else if negb (JS.strict_eq password confirmPassword)
  then JS.Ok (db, failure 400 "Passwords do not match")
  else
    len <- JS.get_length password ;;
    if len <? 6
    then JS.Ok (db, failure 400 "Password must be at least 6 characters")
    else
      match findOne db0 email with
      | Some existingUser =>
          JS.Ok (db, failure 400 "User already exists with this email")
      | None => register_create now db fullName email password
      end.

(** [app.post('/api/register', ...)], other requests writing between the
    two awaits. *)
Definition register_at (now : Z) (db0 db : Mongo.collection)
    (b : Req.body) : Mongo.collection * response :=
  match register_try now db0 db b with
  | JS.Ok r => r
  | JS.Throw error => (db, register_catch error)
  end.

(** [app.post('/api/register', ...)], run alone. *)
Definition register (now : Z) (db : Mongo.collection)
    (b : Req.body) : Mongo.collection * response :=
  register_at now db db b.

Definition login_try (db : Mongo.collection) (b : Req.body)
  : JS.result (Mongo.collection * response) :=
  let email := Req.email b in
  let password := Req.password b in
  if negb (JS.truthy email) || negb (JS.truthy password)
  then JS.Ok (db, failure 400 "Email and password are required")
  else
    match findOne db email with
    | None => JS.Ok (db, failure 401 "Invalid email or password")
    | Some user =>
        if negb (JS.strict_eq (JS.str (Mongo.password user)) password)
        then JS.Ok (db, failure 401 "Invalid email or password")
        else
          JS.Ok (db,
                 mk_response 200
                   (JObj [("success", JBool true);
                          ("message", JStr "Login successful!");
                          ("user", JObj [("id", JOid (Mongo._id user));
                                         ("fullName", JStr (Mongo.fullName user));
                                         ("email", JStr (Mongo.email user))])]))
    end.

(** [app.post('/api/login', ...)] *)
Definition login (db : Mongo.collection) (b : Req.body)
  : Mongo.collection * response :=
  match login_try db b with
  | JS.Ok r => r
  | JS.Throw error =>
      (db, mk_response 500
             (JObj [("success", JBool false);
                    ("message", JStr "Server error during login");
                    ("error", JStr (JS.e_message error))]))
  end.

(** The switch of [app.get('/api/test', ...)]. *)
Definition statusText (dbStatus : Z) : string :=
  match dbStatus with
  | 0 => "Disconnected"
  | 1 => "Connected"
  | 2 => "Connecting"
  | 3 => "Disconnecting"
  | _ => "Unknown"
  end.

(** [app.get('/api/test', ...)]; [uri_set] is whether
    [process.env.MONGODB_URI] is set, [time] is [new Date().toISOString()]. *)
Definition test (readyState : Z) (uri_set : bool) (time : string) : response :=
  let dbStatus := readyState in
  mk_response 200
    (JObj [("message", JStr "Backend server is running!");
           ("database", JStr (statusText dbStatus));
           ("mongodbUri", JStr (if uri_set then "Configured" else "Missing"));
           ("time", JStr time)]).

(** [app.get('/api/health', ...)]; [serverTime] and [uptime] come from the
    clock and the process. *)
Definition health (readyState : Z) (serverTime : string) (uptime : json)
  : response :=
  let dbStatus := readyState in
  let isConnected := dbStatus =? 1 in
  mk_response 200
    (JObj [("status", JStr (if isConnected then "Healthy" else "Unhealthy"));
           ("database", JStr (if isConnected then "Connected" else "Disconnected"));
           ("databaseStatus", JNum dbStatus);
           ("serverTime", JStr serverTime);
           ("uptime", uptime)]).

End Legacy.

(* ================================================================== *)
(** ** The application after the router in [src/backend/routes/videoRoutes.js] *)

Module Api.

Import Http.

(** [getDBStatusText] *)
Definition getDBStatusText (status : Z) : string :=
  match status with
  | 0 => "disconnected"
  | 1 => "connected"
  | 2 => "connecting"
  | 3 => "disconnecting"
  | _ => "unknown"
  end.

(** The database status middleware. [readyState] is
    [mongoose.connection.readyState], [method] is [req.method]; [send r]
    ends the request with the response [r], [next] is the rest of the
    stack: every route of the application is registered after it. *)
Definition db_status_middleware {A : Type} (readyState : Z) (method : string)
    (send : response -> A) (next : A) : A :=
  let dbStatus := readyState in
  if negb (dbStatus =? 1)
  then
    if negb (method =? "GET")%string
    then
      send (mk_response 503
              (JObj [("success", JBool false);
                     ("message",
                      JStr "Database temporarily unavailable. Please try again.");
                     ("databaseStatus", JStr (getDBStatusText dbStatus))]))
    else next
  else next.

(** What [mongoose.connection] and [process] hand to the health route. *)
Record connection : Type := mk_connection {
  readyState : Z;
  host : string;
  name : string
}.

Definition nullable_str (present : bool) (s : string) : json :=
  if present then JStr s else JNull.

(** [app.get('/api/health', ...)]; [server] is the object built from
    [process.uptime()], [process.memoryUsage()] and the clock, and
    [environment] is [process.env.NODE_ENV || 'development']. *)
Definition health (conn : connection) (server : json) (environment : string)
  : response :=
  let dbStatus := readyState conn in
  let isConnected := dbStatus =? 1 in
  mk_response 200
    (JObj [("status", JStr (if isConnected then "Healthy" else "Unhealthy"));
           ("service", JStr "E-Siksha Backend API");
           ("version", JStr "1.0.0");
           ("database",
            JObj [("status", JStr (getDBStatusText dbStatus));
                  ("connected", JBool isConnected);
                  ("host", nullable_str isConnected (host conn));
                  ("name", nullable_str isConnected (name conn))]);
           ("server", server);
           ("environment", JStr environment)]).

(** [/^\S+@\S+\.\S+$/] *)
Definition email_regex : Regex.regex :=
  Regex.Seq (Regex.Plus Regex.NonSpace)
    (Regex.Seq (Regex.Chr "@")
       (Regex.Seq (Regex.Plus Regex.NonSpace)
          (Regex.Seq (Regex.Chr ".") (Regex.Plus Regex.NonSpace)))).

(** [userSchema]: the setters of the string paths. *)
Definition set_fullName (v : string) : string := JS.trim v.
Definition set_email (v : string) : string := JS.trim (JS.toLowerCase v).

(** [userSchema]: the validators of each path, in the order of the schema;
    the first that fails gives the message of the path. [match] passes on
    the empty string. *)
Definition validate_fullName (v : string) : list (string * string) :=
  if (v =? "")%string then [("fullName", "Full name is required")]
  else if JS.length v <? 2
  then [("fullName", "Name must be at least 2 characters")]
  else [].

Definition validate_email (v : string) : list (string * string) :=
  if (v =? "")%string then [("email", "Email is required")]
  else if negb (Regex.test email_regex v)
  then [("email", "Please enter a valid email")]
  else [].

Definition validate_password (v : string) : list (string * string) :=
  if (v =? "")%string then [("password", "Password is required")]
  else if JS.length v <? 6
  then [("password", "Password must be at least 6 characters")]
  else [].

Definition validate (doc : Mongo.user) : list (string * string) :=
  (validate_fullName (Mongo.fullName doc) ++ validate_email (Mongo.email doc)
     ++ validate_password (Mongo.password doc))%list.

(** [new User({ fullName, email, password })] at clock reading [now]: the
    setters run, [createdAt] takes its default, [lastLogin] is unset. *)
Definition new_User (now : Z) (db : Mongo.collection)
    (fullName email : string) (password : JS.jsval) : Mongo.user :=
  Mongo.mk_user (Mongo.new_ObjectId db) (set_fullName fullName)
                (set_email email) (Req.string_of password) now None.

(** [newUser.save()]: validation, then the insertion. *)
Definition save (db : Mongo.collection) (newUser : Mongo.user)
  : JS.result Mongo.collection :=
  match validate newUser with
  | [] => Mongo.insertOne db newUser
  | errors => JS.Throw (Mongo.ValidationError "User" errors)
  end.

(** [user.save()] on a loaded document whose [lastLogin] was set: the
    validators run on the document as loaded, then the update is sent. *)
Definition save_lastLogin (db : Mongo.collection) (user : Mongo.user) (t : Z)
  : JS.result Mongo.collection :=
  match validate user with
  | [] => JS.Ok (Mongo.set_lastLogin db (Mongo._id user) t)
  | errors => JS.Throw (Mongo.ValidationError "User" errors)
  end.

Definition failure (code : Z) (msg : string) : response :=
  mk_response code (JObj [("success", JBool false); ("message", JStr msg)]).

Section Deployment.

(** Whether the Mongoose in use runs the setters of a path on the value
    a query filter gives it (from version 5 on it does). *)
Variable runSettersOnQuery : bool.

(** [process.env.NODE_ENV] *)
Variable NODE_ENV : option string.

(** [User.findOne({ email: key })] *)
Definition findOne (db : Mongo.collection) (key : string)
  : option Mongo.user :=
  Mongo.findOne_email db (if runSettersOnQuery then set_email key else key).

(** [error: process.env.NODE_ENV === 'development' ? error.message : undefined] *)
Definition server_error (msg : string) (error : JS.js_error) : response :=
  mk_response 500
    (JObj ([("success", JBool false); ("message", JStr msg)]
           ++ match NODE_ENV with
              | Some env =>
                  if (env =? "development")%string
                  then [("error", JStr (JS.e_message error))]
                  else []
              | None => []
              end)%list).

(** The [catch] of the registration handler. *)
Definition register_catch (error : JS.js_error) : response :=
  match JS.e_code error with
  | Some 11000 => failure 400 "Email already registered"
  | _ =>
      if (JS.e_name error =? "ValidationError")%string
      then
        let messages := JS.e_errors error in
        failure 400 (JS.join ", " messages)
      else server_error "Server error during registration" error
  end.

(** From [new User] on: the part of the handler that runs after the
    existence query has answered, on the collection as it is then. *)
Definition register_create (now : Z) (db : Mongo.collection)
    (fullName email password : JS.jsval)
  : JS.result (Mongo.collection * response) :=
  name <- JS.call_trim fullName ;;
  lower <- JS.call_toLowerCase email ;;
  let newUser := new_User now db name (JS.trim lower) password in
  db' <- save db newUser ;;
  JS.Ok (db',
         mk_response 201
           (JObj [("success", JBool true);
                  ("message", JStr "Registration successful!");
                  ("user", JObj [("id", JOid (Mongo._id newUser));
                                 ("fullName", JStr (Mongo.fullName newUser));
                                 ("email", JStr (Mongo.email newUser));
                                 ("createdAt", JDate (Mongo.createdAt newUser))])])).

(** The body of the [try]. The handler awaits twice: [db0] is the
    collection as the existence query finds it, [db] the collection as
    the insertion finds it. *)
Definition register_try (now : Z) (db0 db : Mongo.collection)
    (b : Req.body) : JS.result (Mongo.collection * response) :=
  let fullName := Req.fullName b in
  let email := Req.email b in
  let password := Req.password b in
  let confirmPassword := Req.confirmPassword b in
  if negb (JS.truthy fullName) || negb (JS.truthy email)
     || negb (JS.truthy password) || negb (JS.truthy confirmPassword)
  then JS.Ok (db, failure 400 "All fields are required")
  else if negb (JS.strict_eq password confirmPassword)
  then JS.Ok (db, failure 400 "Passwords do not match")
  else
    len <- JS.get_length password ;;
    if len <? 6
    then JS.Ok (db, failure 400 "Password must be at least 6 characters")
    else
      key <- JS.call_toLowerCase email ;;
      match findOne db0 key with
      | Some existingUser =>
          JS.Ok (db, failure 400 "User already exists with this email")
      | None => register_create now db fullName email password
      end.

(** [app.post('/api/register', ...)], other requests writing between
    the two awaits. *)
Definition register_at (now : Z) (db0 db : Mongo.collection)
    (b : Req.body) : Mongo.collection * response :=
  match register_try now db0 db b with
  | JS.Ok r => r
  | JS.Throw error => (db, register_catch error)
  end.

(** [app.post('/api/register', ...)], run alone. *)
Definition register (now : Z) (db : Mongo.collection) (b : Req.body)
  : Mongo.collection * response :=
  register_at now db db b.

Definition login_try (now : Z) (db : Mongo.collection) (b : Req.body)
  : JS.result (Mongo.collection * response) :=
  let email := Req.email b in
  let password := Req.password b in
  if negb (JS.truthy email) || negb (JS.truthy password)
  then JS.Ok (db, failure 400 "Email and password are required")
  else
    key <- JS.call_toLowerCase email ;;
    match findOne db key with
    | None => JS.Ok (db, failure 401 "Invalid email or password")
    | Some user =>
        if negb (JS.strict_eq (JS.str (Mongo.password user)) password)
        then JS.Ok (db, failure 401 "Invalid email or password")
        else
          (* user.lastLogin = new Date(); await user.save(); *)
          let lastLogin := now in
          db' <- save_lastLogin db user lastLogin ;;
          JS.Ok (db',
                 mk_response 200
                   (JObj [("success", JBool true);
                          ("message", JStr "Login successful!");
                          ("user", JObj [("id", JOid (Mongo._id user));
                                         ("fullName", JStr (Mongo.fullName user));
                                         ("email", JStr (Mongo.email user));
                                         ("lastLogin", JDate lastLogin)])]))
    end.

(** [app.post('/api/login', ...)] *)
Definition login (now : Z) (db : Mongo.collection) (b : Req.body)
  : Mongo.collection * response :=
  match login_try now db b with
  | JS.Ok r => r
  | JS.Throw error => (db, server_error "Server error during login" error)
  end.

(** The two operations of the account service. *)
Inductive request : Type :=
| PostRegister (b : Req.body)
| PostLogin (b : Req.body).

Definition handle (now : Z) (db : Mongo.collection) (req : request)
  : Mongo.collection * response :=
  match req with
  | PostRegister b => register now db b
  | PostLogin b => login now db b
  end.

(** [reachable t db]: the collection [db] is what a run of requests
    leaves of the empty collection, each handled alone, the clock never
    going back, and [t] is a reading the clock has reached. *)
Inductive reachable : Z -> Mongo.collection -> Prop :=
| reach_empty (t : Z) : reachable t []
| reach_step (t now : Z) (db : Mongo.collection) (req : request) :
    reachable t db -> t <= now -> reachable now (fst (handle now db req)).

(** A run of requests, each handled alone at its clock reading: the
    collection it leaves and the answers, in order. *)
Fixpoint run (db : Mongo.collection) (trace : list (Z * request))
  : Mongo.collection * list response :=
  match trace with
  | [] => (db, [])
  | (now, req) :: rest =>
      let (db1, r) := handle now db req in
      let (db2, rs) := run db1 rest in
      (db2, r :: rs)
  end.

End Deployment.

(** [app.get('/api/test-db', ...)] on a collection that answers. *)
Definition test_db (conn : connection) (db : Mongo.collection) : response :=
  let userCount := Mongo.countDocuments db in
  mk_response 200
    (JObj [("success", JBool true);
           ("message", JStr "Database test successful");
           ("userCount", JNum userCount);
           ("database", JStr (name conn));
           ("sampleData",
            JStr (if userCount >? 0 then "Data exists" else "No users yet"))]).

End Api.

(* ================================================================== *)
(** ** The registration handlers on bodies of any JSON type *)

(** [express.json()] delivers every JSON value. [JS.jsval] keeps the fields
    that are text or missing, the input type of the account service; this
    module runs the two registration handlers on the fields as they come.
    On the fields of [JS.jsval] the two readings are the same handler
    (lemmas [wide_api_register_at] and [wide_legacy_register_at] below). *)

Module Wide.

Import Http.

(** A field of [req.body]. A number is given by what [String(n)] prints
    for it: two numbers are [===] exactly when they print the same, and
    ["0"] is the one that is falsy. An array or an object is kept as its
    JSON text. *)
Inductive value : Type :=
| undefined
| null
| str (s : string)
| num (printed : string)
| boolean (b : bool)
| obj (text : string).

(** [!!v] *)
Definition truthy (v : value) : bool :=
  match v with
  | str s => negb (s =? "")%string
  | num printed => negb (printed =? "0")%string
  | boolean b => b
  | obj _ => true
  | _ => false
  end.

(** [a === b] between two fields of one parsed body: two arrays or objects
    of a body are never the same object. *)
Definition strict_eq (a b : value) : bool :=
  match a, b with
  | undefined, undefined => true
  | null, null => true
  | str s, str t => (s =? t)%string
  | num p, num q => (p =? q)%string
  | boolean x, boolean y => Bool.eqb x y
  | _, _ => false
  end.

Record body : Type := mk_body {
  fullName : value;
  email : value;
  password : value;
  confirmPassword : value
}.

Definition inject (v : JS.jsval) : value :=
  match v with
  | JS.undefined => undefined
  | JS.null => null
  | JS.str s => str s
  end.

Definition inject_body (b : Req.body) : body :=
  mk_body (inject (Req.fullName b)) (inject (Req.email b))
          (inject (Req.password b)) (inject (Req.confirmPassword b)).

(** Mongoose's cast to the type String of a path or of a filter: a string
    is kept, a number and a boolean are printed, an array or an object
    fails to cast. *)
Definition cast_string (v : value) : option string :=
  match v with
  | str s => Some s
  | num printed => Some printed
  | boolean true => Some "true"
  | boolean false => Some "false"
  | _ => None
  end.

(** The string a path holds once cast and validated. *)
Definition string_of (v : value) : string :=
  match cast_string v with
  | Some s => s
  | None => ""
  end.

Definition not_a_function (what : string) : JS.js_error :=
  {| JS.e_name := "TypeError";
     JS.e_code := None;
     JS.e_message := what ++ " is not a function";
     JS.e_errors := [] |}.

(** [v.toLowerCase()] and [v.trim()], [v] being the field [name]. *)
Definition call_toLowerCase (name : string) (v : value) : JS.result string :=
  match v with
  | str s => JS.Ok (JS.toLowerCase s)
  | undefined | null => JS.Throw (JS.TypeError "toLowerCase")
  | _ => JS.Throw (not_a_function (name ++ ".toLowerCase"))
  end.

Definition call_trim (name : string) (v : value) : JS.result string :=
  match v with
  | str s => JS.Ok (JS.trim s)
  | undefined | null => JS.Throw (JS.TypeError "trim")
  | _ => JS.Throw (not_a_function (name ++ ".trim"))
  end.

Section Objects.

(** What the handlers leave to the language and to the driver on an array
    or an object, given by its JSON text: what [o.length < n] gives; the
    documents a filter [{ email: o }] matches ([$]-operators), or none
    when the filter fails to cast; the message of a failed cast of a
    path. *)
Variable object_length_lt : string -> Z -> bool.
Variable object_filter : string -> option (Mongo.user -> bool).
Variable cast_message : string -> string -> string.

(** [v.length < n]: a number and a boolean have no [length], and
    [undefined < n] is false. *)
Definition length_lt (v : value) (n : Z) : JS.result bool :=
  match v with
  | str s => JS.Ok (JS.length s <? n)
  | num _ | boolean _ => JS.Ok false
  | obj text => JS.Ok (object_length_lt text n)
  | _ => JS.Throw (JS.TypeError "length")
  end.

Definition CastError (path text : string) : JS.js_error :=
  {| JS.e_name := "CastError";
     JS.e_code := None;
     JS.e_message := cast_message path text;
     JS.e_errors := [] |}.

(** *** [src/backend/server.js] *)

(** The errors of a path of the first schema: a failed cast, or
    [required] on a missing, null or empty value. *)
Definition legacy_path_errors (path : string) (v : value)
  : list (string * string) :=
  match v with
  | obj text => [(path, cast_message path text)]
  | _ =>
      if negb (string_of v =? "")%string then []
      else [(path, "Path `" ++ path ++ "` is required.")]
  end.

Definition legacy_validate (fullName email password : value)
  : list (string * string) :=
  (legacy_path_errors "fullName" fullName ++ legacy_path_errors "email" email
     ++ legacy_path_errors "password" password)%list.

(** [new User({ fullName, email, password })] *)
Definition legacy_new_User (now : Z) (db : Mongo.collection)
    (fullName email password : value) : Mongo.user :=
  Mongo.mk_user (Mongo.new_ObjectId db) (string_of fullName)
                (string_of email) (string_of password) now None.

(** [newUser.save()] *)
Definition legacy_save (db : Mongo.collection) (fullName email password : value)
    (newUser : Mongo.user) : JS.result Mongo.collection :=
  match legacy_validate fullName email password with
  | [] => Mongo.insertOne db newUser
  | errors => JS.Throw (Mongo.ValidationError "User" errors)
  end.

(** [User.findOne({ email })]: the filter is cast to a string, an array or
    an object is read as the driver reads it. *)
Definition legacy_findOne (db : Mongo.collection) (email : value)
  : JS.result (option Mongo.user) :=
  match email with
  | obj text =>
      match object_filter text with
      | Some matches => JS.Ok (find matches db)
      | None => JS.Throw (CastError "email" text)
      end
  | undefined | null => JS.Ok None
  | _ => JS.Ok (Mongo.findOne_email db (string_of email))
  end.

Definition legacy_register_create (now : Z) (db : Mongo.collection)
    (fullName email password : value)
  : JS.result (Mongo.collection * response) :=
  let newUser := legacy_new_User now db fullName email password in
  db' <- legacy_save db fullName email password newUser ;;
  JS.Ok (db',
         mk_response 201
           (JObj [("success", JBool true);
                  ("message", JStr "Registration successful!");
                  ("user", JObj [("id", JOid (Mongo._id newUser));
                                 ("fullName", JStr (Mongo.fullName newUser));
                                 ("email", JStr (Mongo.email newUser))])])).

Definition legacy_register_try (now : Z) (db0 db : Mongo.collection)
    (b : body) : JS.result (Mongo.collection * response) :=
  let fullName := fullName b in
  let email := email b in
  let password := password b in
  let confirmPassword := confirmPassword b in
  if negb (truthy fullName) || negb (truthy email)
     || negb (truthy password) || negb (truthy confirmPassword)
  then JS.Ok (db, Legacy.failure 400 "All fields are required")
  else if negb (strict_eq password confirmPassword)
  then JS.Ok (db, Legacy.failure 400 "Passwords do not match")
  else
    short <- length_lt password 6 ;;
    if short
    then JS.Ok (db, Legacy.failure 400 "Password must be at least 6 characters")
    else
      found <- legacy_findOne db0 email ;;
      match found with
      | Some existingUser =>
          JS.Ok (db, Legacy.failure 400 "User already exists with this email")
      | None => legacy_register_create now db fullName email password
      end.

(** [app.post('/api/register', ...)] of [server.js]; [db0] and [db] as in
    [Legacy.register_at]. *)
Definition legacy_register_at (now : Z) (db0 db : Mongo.collection) (b : body)
  : Mongo.collection * response :=
  match legacy_register_try now db0 db b with
  | JS.Ok r => r
  | JS.Throw error => (db, Legacy.register_catch error)
  end.

(** *** The application of [routes/videoRoutes.js] *)

Variable runSettersOnQuery : bool.
Variable NODE_ENV : option string.

(** The errors of the document: the validators of the name and of the
    email, and for the password a failed cast or its validators. *)
Definition api_validate (password : value) (doc : Mongo.user)
  : list (string * string) :=
  (Api.validate_fullName (Mongo.fullName doc)
     ++ Api.validate_email (Mongo.email doc)
     ++ match password with
        | obj text => [("password", cast_message "password" text)]
        | _ => Api.validate_password (Mongo.password doc)
        end)%list.

(** [new User({ fullName, email, password })] *)
Definition api_new_User (now : Z) (db : Mongo.collection)
    (fullName email : string) (password : value) : Mongo.user :=
  Mongo.mk_user (Mongo.new_ObjectId db) (Api.set_fullName fullName)
                (Api.set_email email) (string_of password) now None.

(** [newUser.save()] *)
Definition api_save (db : Mongo.collection) (password : value)
    (newUser : Mongo.user) : JS.result Mongo.collection :=
  match api_validate password newUser with
  | [] => Mongo.insertOne db newUser
  | errors => JS.Throw (Mongo.ValidationError "User" errors)
  end.

Definition api_register_create (now : Z) (db : Mongo.collection)
    (fullName email password : value)
  : JS.result (Mongo.collection * response) :=
  name <- call_trim "fullName" fullName ;;
  lower <- call_toLowerCase "email" email ;;
  let newUser := api_new_User now db name (JS.trim lower) password in
  db' <- api_save db password newUser ;;
  JS.Ok (db',
         mk_response 201
           (JObj [("success", JBool true);
                  ("message", JStr "Registration successful!");
                  ("user", JObj [("id", JOid (Mongo._id newUser));
                                 ("fullName", JStr (Mongo.fullName newUser));
                                 ("email", JStr (Mongo.email newUser));
                                 ("createdAt", JDate (Mongo.createdAt newUser))])])).

Definition api_register_try (now : Z) (db0 db : Mongo.collection)
    (b : body) : JS.result (Mongo.collection * response) :=
  let fullName := fullName b in
  let email := email b in
  let password := password b in
  let confirmPassword := confirmPassword b in
  if negb (truthy fullName) || negb (truthy email)
     || negb (truthy password) || negb (truthy confirmPassword)
  then JS.Ok (db, Api.failure 400 "All fields are required")
  else if negb (strict_eq password confirmPassword)
  then JS.Ok (db, Api.failure 400 "Passwords do not match")
  else
    short <- length_lt password 6 ;;
    if short
    then JS.Ok (db, Api.failure 400 "Password must be at least 6 characters")
    else
      key <- call_toLowerCase "email" email ;;
      match Api.findOne runSettersOnQuery db0 key with
      | Some existingUser =>
          JS.Ok (db, Api.failure 400 "User already exists with this email")
      | None => api_register_create now db fullName email password
      end.

(** [app.post('/api/register', ...)] of [routes/videoRoutes.js]; [db0] and
    [db] as in [Api.register_at]. *)
Definition api_register_at (now : Z) (db0 db : Mongo.collection) (b : body)
  : Mongo.collection * response :=
  match api_register_try now db0 db b with
  | JS.Ok r => r
  | JS.Throw error => (db, Api.register_catch NODE_ENV error)
  end.

End Objects.

End Wide.

(* ================================================================== *)
(** ** The video router of [src/backend/routes/videoRoutes.js] *)

Module VideoRoutes.

Import Http.

(** A document of the [videos] collection ([models/Video.js]): the
    ObjectId, the two optional strings of the schema and the version key
    Mongoose adds to the documents it saves. *)
Record video : Type := mk_video {
  _id : N;
  title : option string;
  videoUrl : option string;
  __v : option Z
}.

Definition opt_field {A : Type} (k : string) (f : A -> json) (v : option A)
  : list (string * json) :=
  match v with
  | Some a => [(k, f a)]
  | None => []
  end.

(** [res.json(video)] on a document. *)
Definition to_json (v : video) : json :=
  JObj ([("_id", JOid (_id v))] ++ opt_field "title" JStr (title v)
          ++ opt_field "videoUrl" JStr (videoUrl v)
          ++ opt_field "__v" JNum (__v v))%list.

(** [.sort({ _id: -1 })]: descending ObjectId. *)
Fixpoint insert_desc (v : video) (l : list video) : list video :=
  match l with
  | [] => [v]
  | w :: r => if (_id w <=? _id v)%N then v :: l else w :: insert_desc v r
  end.

Definition sort_desc (l : list video) : list video :=
  fold_right insert_desc [] l.

(** [Video.findOne().sort({ _id: -1 })] *)
Definition findOne_latest (db : list video) : option video :=
  hd_error (sort_desc db).

(** [router.get("/video", ...)], on what the query gives: its answer, or
    the error the driver throws. *)
Definition video_route (query : JS.result (option video)) : response :=
  match query with
  | JS.Ok (Some video) => mk_response 200 (to_json video)
  | JS.Ok None => mk_response 200 JNull
  | JS.Throw err => mk_response 500 (JObj [("error", JStr (JS.e_message err))])
  end.

(** The route on a collection that answers. *)
Definition get_video (db : list video) : response :=
  video_route (JS.Ok (findOne_latest db)).

End VideoRoutes.

(* ================================================================== *)
(** ** The outcome kinds of the specification *)

Module Outcome.

Import Http.

(** The taxonomy of section 7 of the specification, read off what the
    handlers send: 401 is [AuthError], 500 and 503 are [StoreError], 400 is
    [ConflictError] under one of the two messages of a taken email and
    [ValidationError] otherwise. *)
Inductive kind : Type :=
| Success
| ValidationError
| ConflictError
| AuthError
| StoreError
| Other.

Definition conflict_message (m : option json) : bool :=
  match m with
  | Some (JStr s) =>
      (s =? "User already exists with this email")%string
      || (s =? "Email already registered")%string
  | _ => false
  end.

Definition kind_of (r : response) : kind :=
  match status r with
  | 200 | 201 => Success
  | 400 => if conflict_message (message r) then ConflictError
           else ValidationError
  | 401 => AuthError
  | 500 | 503 => StoreError
  | _ => Other
  end.

(** A field of the body that is absent or empty. *)
Definition absent_or_empty (v : JS.jsval) : Prop :=
  v = JS.undefined \/ v = JS.null \/ v = JS.str "".

(** A registration request that is valid: the four fields are present,
    the two passwords are equal and of six characters or more, and the
    name and the email pass the validators of the schema of [Api] once
    its setters have run. *)
Definition valid_registration (b : Req.body) : bool :=
  match Req.fullName b, Req.email b, Req.password b, Req.confirmPassword b with
  | JS.str f, JS.str e, JS.str p, JS.str c =>
      negb (f =? "")%string && negb (e =? "")%string && (p =? c)%string
      && (6 <=? JS.length p)
      && match Api.validate_fullName (Api.set_fullName f),
               Api.validate_email (Api.set_email e) with
         | [], [] => true
         | _, _ => false
         end
  | _, _, _, _ => false
  end.

(** What a login may change of a stored account: nothing, or its
    [lastLogin], set to [now]. *)
Definition login_frame (now : Z) (u u' : Mongo.user) : Prop :=
  Mongo._id u' = Mongo._id u
  /\ Mongo.fullName u' = Mongo.fullName u
  /\ Mongo.email u' = Mongo.email u
  /\ Mongo.password u' = Mongo.password u
  /\ Mongo.createdAt u' = Mongo.createdAt u
  /\ (Mongo.lastLogin u' = Mongo.lastLogin u \/ Mongo.lastLogin u' = Some now).

(** Two handlers have the same outcome: the same kind, the same stored
    emails and last logins, the same user view. *)
Definition same_outcome (a b : Mongo.collection * response) : Prop :=
  kind_of (snd a) = kind_of (snd b)
  /\ map Mongo.email (fst a) = map Mongo.email (fst b)
  /\ map Mongo.lastLogin (fst a) = map Mongo.lastLogin (fst b)
  /\ user_view (snd a) = user_view (snd b).

(** The properties [id], [fullName] and [email] of a user view. *)
Definition identity_of (r : response) : list (option json) :=
  match user_view r with
  | Some view => [field "id" view; field "fullName" view; field "email" view]
  | None => []
  end.

(** The account a valid registration creates in [Api], and the answer
    that goes with it. *)
Definition api_account (now : Z) (db : Mongo.collection) (f e p : string)
  : Mongo.user :=
  Mongo.mk_user (Mongo.new_ObjectId db) (JS.trim f) (Api.set_email e) p now
                None.

Definition api_created (u : Mongo.user) : response :=
  mk_response 201
    (JObj [("success", JBool true);
           ("message", JStr "Registration successful!");
           ("user", JObj [("id", JOid (Mongo._id u));
                          ("fullName", JStr (Mongo.fullName u));
                          ("email", JStr (Mongo.email u));
                          ("createdAt", JDate (Mongo.createdAt u))])]).

(** The same for [Legacy]. *)
Definition legacy_account (now : Z) (db : Mongo.collection) (f e p : string)
  : Mongo.user :=
  Mongo.mk_user (Mongo.new_ObjectId db) f e p now None.

Definition legacy_created (u : Mongo.user) : response :=
  mk_response 201
    (JObj [("success", JBool true);
           ("message", JStr "Registration successful!");
           ("user", JObj [("id", JOid (Mongo._id u));
                          ("fullName", JStr (Mongo.fullName u));
                          ("email", JStr (Mongo.email u))])]).

(** An email is taken in a collection. *)
Definition taken (db : Mongo.collection) (key : string) : bool :=
  existsb (fun u => (Mongo.email u =? key)%string) db.


(** The collection is consistent with a clock that has reached [t]:
    identifiers are unique, no account was created after [t], and a last
    login is not before the creation. *)
Definition well_timed (t : Z) (db : Mongo.collection) : Prop :=
  NoDup (map Mongo._id db)
  /\ Forall (fun u =>
               Mongo.createdAt u <= t
               /\ forall l, Mongo.lastLogin u = Some l ->
                            Mongo.createdAt u <= l) db.

(** A stored account with its [lastLogin] set. *)
Definition logged_in (u : Mongo.user) (t : Z) : Mongo.user :=
  Mongo.mk_user (Mongo._id u) (Mongo.fullName u) (Mongo.email u)
                (Mongo.password u) (Mongo.createdAt u) (Some t).

(** The head of a list of videos bounds the identifiers of the list. *)
Definition head_is_max (l : list VideoRoutes.video) : Prop :=
  match l with
  | [] => True
  | h :: _ => forall w, In w l -> (VideoRoutes._id w <= VideoRoutes._id h)%N
  end.

(** The user view of an answer, if it has one, has no [password]. *)
Definition hides_password (r : response) : Prop :=
  forall view, user_view r = Some view -> field "password" view = None.

(** A stored account as the schema of [Api] leaves it: its validators
    pass, the name is trimmed, the email is lowercase and trimmed. *)
Definition schema_ok (u : Mongo.user) : Prop :=
  Api.validate u = []
  /\ JS.trim (Mongo.fullName u) = Mongo.fullName u
  /\ Api.set_email (Mongo.email u) = Mongo.email u.

(** No account has logged in after [t]. *)
Definition logins_by (t : Z) (db : Mongo.collection) : Prop :=
  Forall (fun u => forall l, Mongo.lastLogin u = Some l -> l <= t) db.

(** The last login of [u'] is not before the one of [u]. *)
Definition login_not_earlier (u u' : Mongo.user) : Prop :=
  match Mongo.lastLogin u with
  | None => True
  | Some l => exists l', Mongo.lastLogin u' = Some l' /\ l <= l'
  end.

(** The number of answers with status 201. *)
Definition created_count (rs : list response) : Z :=
  Z.of_nat (List.length (filter (fun r => status r =? 201) rs)).

(** The shape [local@domain.tld]: three non-empty parts without white
    space, an [@] after the first and a dot after the second. *)
Definition email_shape (s : string) : Prop :=
  exists a b c,
    s = (a ++ "@" ++ b ++ "." ++ c)%string
    /\ a <> "" /\ b <> "" /\ c <> ""
    /\ JS.no_space a = true /\ JS.no_space b = true /\ JS.no_space c = true.

(** A body with its email replaced. *)
Definition with_email (b : Req.body) (e : JS.jsval) : Req.body :=
  Req.mk_body (Req.fullName b) e (Req.password b) (Req.confirmPassword b).

(** Two accounts that differ at most in their identifier. *)
Definition same_but_id (u v : Mongo.user) : Prop :=
  Mongo.fullName u = Mongo.fullName v
  /\ Mongo.email u = Mongo.email v
  /\ Mongo.password u = Mongo.password v
  /\ Mongo.createdAt u = Mongo.createdAt v
  /\ Mongo.lastLogin u = Mongo.lastLogin v.

(** The properties [fullName] and [email] of a user view. *)
Definition name_and_email_of (r : response) : list (option json) :=
  match user_view r with
  | Some view => [field "fullName" view; field "email" view]
  | None => []
  end.

End Outcome.

(* ================================================================== *)
(** * Properties *)

(** ** Strings *)

Section StringFacts.

Import JS.

Lemma lower_char_idem (c : ascii) : lower_char (lower_char c) = lower_char c.
Proof. destruct c as [[] [] [] [] [] [] [] []]; reflexivity. Qed.

Lemma is_space_lower_char (c : ascii) : is_space (lower_char c) = is_space c.
Proof. destruct c as [[] [] [] [] [] [] [] []]; reflexivity. Qed.

Lemma toLowerCase_idem (s : string) : toLowerCase (toLowerCase s) = toLowerCase s.
Proof.
  induction s as [|c r IH]; simpl; [reflexivity|].
  now rewrite lower_char_idem, IH.
Qed.

Lemma trimStart_lower (s : string) :
  trimStart (toLowerCase s) = toLowerCase (trimStart s).
Proof.
  induction s as [|c r IH]; simpl; [reflexivity|].
  rewrite is_space_lower_char. destruct (is_space c); [exact IH|reflexivity].
Qed.

Lemma trimEnd_lower (s : string) :
  trimEnd (toLowerCase s) = toLowerCase (trimEnd s).
Proof.
  induction s as [|c r IH]; simpl; [reflexivity|].
  rewrite IH, is_space_lower_char.
  destruct (trimEnd r); simpl; [destruct (is_space c)|]; reflexivity.
Qed.

Lemma trim_lower (s : string) : trim (toLowerCase s) = toLowerCase (trim s).
Proof. unfold trim. now rewrite trimStart_lower, trimEnd_lower. Qed.

Lemma trimStart_idem (s : string) : trimStart (trimStart s) = trimStart s.
Proof.
  induction s as [|c r IH]; simpl; [reflexivity|].
  destruct (is_space c) eqn:E; [exact IH|]. simpl. now rewrite E.
Qed.

Lemma trimEnd_idem (s : string) : trimEnd (trimEnd s) = trimEnd s.
Proof.
  induction s as [|c r IH]; simpl; [reflexivity|].
  destruct (trimEnd r) as [|d t] eqn:E.
  - destruct (is_space c) eqn:Ec; simpl; [reflexivity|]. now rewrite Ec.
  - simpl in IH |- *. now rewrite IH.
Qed.

(** Trimming the end keeps a non-space head in place. *)
Lemma trimStart_trimEnd (s : string) :
  trimStart (trimEnd (trimStart s)) = trimEnd (trimStart s).
Proof.
  induction s as [|c r IH]; simpl; [reflexivity|].
  destruct (is_space c) eqn:E; [exact IH|]. simpl.
  rewrite E. destruct (trimEnd r); simpl; now rewrite E.
Qed.

Lemma trim_idem (s : string) : trim (trim s) = trim s.
Proof. unfold trim. now rewrite trimStart_trimEnd, trimEnd_idem. Qed.

Lemma set_email_idem (s : string) : Api.set_email (Api.set_email s) = Api.set_email s.
Proof.
  unfold Api.set_email.
  now rewrite <- trim_lower, trim_idem, toLowerCase_idem.
Qed.

Lemma set_email_lower (s : string) :
  Api.set_email (toLowerCase s) = Api.set_email s.
Proof. unfold Api.set_email. now rewrite toLowerCase_idem. Qed.

Lemma string_eqb_neq (s t : string) : s <> t -> (s =? t)%string = false.
Proof. intro H. now apply String.eqb_neq. Qed.

End StringFacts.

(** ** Status reporter *)

(** C7. For every raw connection state, [getDBStatusText] returns
    ["connected"] exactly when the state is 1; the states 0, 2 and 3 give
    ["disconnected"], ["connecting"] and ["disconnecting"], and every other
    state gives ["unknown"]. The health route is a function of the
    connection alone: it always answers 200, with that label and with
    [connected] true exactly when the state is 1. *)
Theorem getDBStatusText_health_labels (st : Z) :
  (Api.getDBStatusText st = "connected" <-> st = 1)
  /\ Api.getDBStatusText 0 = "disconnected"
  /\ Api.getDBStatusText 2 = "connecting"
  /\ Api.getDBStatusText 3 = "disconnecting"
  /\ (st <> 0 -> st <> 1 -> st <> 2 -> st <> 3 ->
      Api.getDBStatusText st = "unknown")
  /\ forall (host name : string) (server : Http.json) (environment : string),
       let r := Api.health (Api.mk_connection st host name) server environment in
       Http.status r = 200
       /\ exists database,
            Http.field "database" (Http.body r) = Some database
            /\ Http.field "status" database
               = Some (Http.JStr (Api.getDBStatusText st))
            /\ Http.field "connected" database = Some (Http.JBool (st =? 1)).
Proof.
  repeat split.
  - destruct st as [|[[p|p|]|[p|p|]|]|p]; simpl; intro H;
      solve [reflexivity | discriminate H].
  - intros ->. reflexivity.
  - intros H0 H1 H2 H3.
    destruct st as [|[[p|p|]|[p|p|]|]|p]; simpl; try reflexivity;
      solve [now elim H0 | now elim H1 | now elim H2 | now elim H3].
  - eexists. repeat split.
Qed.

Lemma getDBStatusText_health_labels_witness :
  Api.getDBStatusText 99 = "unknown"
  /\ (Api.getDBStatusText 1 = "connected" <-> 1 = 1).
Proof.
  split.
  - apply (getDBStatusText_health_labels 99); lia.
  - apply (getDBStatusText_health_labels 1).
Defined.

(** ** Request gating *)

(** C9. While the connection state is not 1, the database status middleware
    ends every request whose method is not GET with status 503, whatever the
    rest of the stack is (no route is run), and hands every GET request to
    the rest of the stack; when the state is 1 it hands every request on. *)
Theorem db_status_middleware_gates (A : Type) (readyState : Z)
    (method : string) (send : Http.response -> A) (next : A) :
  (readyState <> 1 -> method <> "GET" ->
   exists r,
     Api.db_status_middleware readyState method send next = send r
     /\ Http.status r = 503
     /\ Http.field "databaseStatus" (Http.body r)
        = Some (Http.JStr (Api.getDBStatusText readyState)))
  /\ (readyState <> 1 -> method = "GET" ->
      Api.db_status_middleware readyState method send next = next)
  /\ (readyState = 1 ->
      Api.db_status_middleware readyState method send next = next).
Proof.
  unfold Api.db_status_middleware. repeat split.
  - intros Hs Hm.
    apply Z.eqb_neq in Hs. apply String.eqb_neq in Hm. rewrite Hs, Hm. simpl.
    eexists. repeat split.
  - intros Hs ->. apply Z.eqb_neq in Hs. now rewrite Hs.
  - intros ->. reflexivity.
Qed.

Lemma db_status_middleware_gates_witness :
  (exists r,
     Api.db_status_middleware 0 "POST" (fun r => Some r) None = Some r
     /\ Http.status r = 503
     /\ Http.field "databaseStatus" (Http.body r)
        = Some (Http.JStr (Api.getDBStatusText 0)))
  /\ Api.db_status_middleware 2 "GET" (fun r => Some r) None = None
  /\ Api.db_status_middleware 1 "DELETE" (fun r => Some r) None = None.
Proof.
  pose proof (db_status_middleware_gates (option Http.response) 0 "POST"
                (fun r => Some r) None) as H0.
  pose proof (db_status_middleware_gates (option Http.response) 2 "GET"
                (fun r => Some r) None) as H2.
  pose proof (db_status_middleware_gates (option Http.response) 1 "DELETE"
                (fun r => Some r) None) as H1.
  destruct H0 as [H0 _]. destruct H2 as [_ [H2 _]]. destruct H1 as [_ [_ H1]].
  split; [|split].
  - apply H0; [lia | discriminate].
  - apply H2; [lia | reflexivity].
  - apply H1. reflexivity.
Defined.

(** ** Content lookup *)

Section LatestVideo.

Import VideoRoutes.

Lemma insert_desc_In (v x : video) (l : list video) :
  In x (insert_desc v l) <-> x = v \/ In x l.
Proof.
  induction l as [|w r IH]; simpl.
  - intuition.
  - destruct (_id w <=? _id v)%N; simpl; [intuition|].
    rewrite IH. intuition.
Qed.

Lemma sort_desc_In (x : video) (l : list video) :
  In x (sort_desc l) <-> In x l.
Proof.
  induction l as [|v r IH]; simpl; [tauto|].
  rewrite insert_desc_In, IH. intuition.
Qed.

Lemma insert_desc_head (v : video) (l : list video) :
  Outcome.head_is_max l -> Outcome.head_is_max (insert_desc v l).
Proof.
  destruct l as [|h r]; simpl.
  - intros _ w [->|[]]. lia.
  - intro H. destruct (_id h <=? _id v)%N eqn:E.
    + apply N.leb_le in E. simpl. intros w [->|Hw]; [lia|].
      specialize (H w Hw). lia.
    + apply N.leb_gt in E. simpl. intros w [->|Hw]; [lia|].
      apply insert_desc_In in Hw. destruct Hw as [->|Hw]; [lia|].
      apply H. now right.
Qed.

Lemma sort_desc_head (l : list video) : Outcome.head_is_max (sort_desc l).
Proof.
  induction l as [|v r IH]; simpl; [exact I|].
  now apply insert_desc_head.
Qed.

Lemma findOne_latest_max (db : list video) (m : video) :
  findOne_latest db = Some m ->
  In m db /\ forall w, In w db -> (_id w <= _id m)%N.
Proof.
  unfold findOne_latest. intro H.
  pose proof (sort_desc_head db) as Hmax.
  destruct (sort_desc db) as [|h r] eqn:E; [discriminate|].
  injection H as ->. split.
  - apply sort_desc_In. rewrite E. now left.
  - intros w Hw. apply Hmax. rewrite <- E. now apply sort_desc_In.
Qed.

Lemma findOne_latest_none (db : list video) :
  findOne_latest db = None -> db = [].
Proof.
  unfold findOne_latest. destruct db as [|v r]; [reflexivity|].
  intro H. exfalso.
  assert (Hin : In v (sort_desc (v :: r))) by (apply sort_desc_In; now left).
  destruct (sort_desc (v :: r)); [exact Hin | discriminate H].
Qed.

Lemma NoDup_map_eq (l : list video) (x y : video) :
  NoDup (map _id l) -> In x l -> In y l -> _id x = _id y -> x = y.
Proof.
  induction l as [|a r IH]; simpl; [tauto|].
  intros Hnd Hx Hy E. inversion Hnd as [|? ? Hnot Hnd']; subst.
  destruct Hx as [->|Hx], Hy as [->|Hy]; auto.
  - exfalso. apply Hnot. rewrite E. now apply in_map.
  - exfalso. apply Hnot. rewrite <- E. now apply in_map.
Qed.

(** What the answer carries of a document. *)
Lemma to_json_fields (v : video) :
  Http.field "_id" (to_json v) = Some (Http.JOid (_id v))
  /\ Http.field "title" (to_json v) = option_map Http.JStr (title v)
  /\ Http.field "videoUrl" (to_json v) = option_map Http.JStr (videoUrl v).
Proof.
  destruct v as [i [t|] [u|] [z|]]; repeat split; reflexivity.
Qed.

End LatestVideo.

(** C8. On the empty collection the video route answers 200 with [null]; on
    any other collection it answers 200 with a document of the collection
    whose identifier is the greatest, the only such document since
    identifiers are unique: the body carries the [_id], the [title] and the
    [videoUrl] of that document. On [{_id: 1}, {_id: 2}] it answers
    [{_id: 2}]. *)
Theorem get_video_returns_latest (db : list VideoRoutes.video) :
  match VideoRoutes.findOne_latest db with
  | None =>
      db = [] /\ VideoRoutes.get_video db = Http.mk_response 200 Http.JNull
  | Some m =>
      db <> []
      /\ VideoRoutes.get_video db = Http.mk_response 200 (VideoRoutes.to_json m)
      /\ Http.field "_id" (Http.body (VideoRoutes.get_video db))
         = Some (Http.JOid (VideoRoutes._id m))
      /\ Http.field "title" (Http.body (VideoRoutes.get_video db))
         = option_map Http.JStr (VideoRoutes.title m)
      /\ Http.field "videoUrl" (Http.body (VideoRoutes.get_video db))
         = option_map Http.JStr (VideoRoutes.videoUrl m)
      /\ In m db
      /\ (forall w, In w db -> (VideoRoutes._id w <= VideoRoutes._id m)%N)
      /\ (NoDup (map VideoRoutes._id db) ->
          forall w, In w db -> w <> m ->
                    (VideoRoutes._id w < VideoRoutes._id m)%N)
  end
  /\ VideoRoutes.get_video [] = Http.mk_response 200 Http.JNull
  /\ forall v1 v2,
       VideoRoutes._id v1 = 1%N -> VideoRoutes._id v2 = 2%N ->
       VideoRoutes.get_video [v1; v2]
       = Http.mk_response 200 (VideoRoutes.to_json v2)
       /\ VideoRoutes.get_video [v2; v1]
          = Http.mk_response 200 (VideoRoutes.to_json v2)
       /\ Http.field "_id" (Http.body (VideoRoutes.get_video [v1; v2]))
          = Some (Http.JOid 2)
       /\ Http.field "_id" (Http.body (VideoRoutes.get_video [v2; v1]))
          = Some (Http.JOid 2).
Proof.
  split; [|split].
  - destruct (VideoRoutes.findOne_latest db) as [m|] eqn:E.
    + destruct (findOne_latest_max db m E) as [Hin Hmax].
      destruct (to_json_fields m) as (Fid & Ftitle & Furl).
      assert (Hget : VideoRoutes.get_video db
                     = Http.mk_response 200 (VideoRoutes.to_json m))
        by (unfold VideoRoutes.get_video; now rewrite E).
      split; [intros ->; exact Hin|].
      split; [exact Hget|]. rewrite Hget. cbn [Http.body].
      split; [exact Fid|]. split; [exact Ftitle|]. split; [exact Furl|].
      split; [exact Hin|]. split; [exact Hmax|].
      intros Hnd w Hw Hneq. specialize (Hmax w Hw).
      assert (VideoRoutes._id w <> VideoRoutes._id m).
      { intro Heq. apply Hneq. eapply NoDup_map_eq; eauto. }
      lia.
    + split; [now apply findOne_latest_none|].
      unfold VideoRoutes.get_video. now rewrite E.
  - reflexivity.
  - intros v1 v2 H1 H2.
    assert (G1 : VideoRoutes.get_video [v1; v2]
                 = Http.mk_response 200 (VideoRoutes.to_json v2)).
    { unfold VideoRoutes.get_video, VideoRoutes.findOne_latest. simpl.
      rewrite H1, H2. reflexivity. }
    assert (G2 : VideoRoutes.get_video [v2; v1]
                 = Http.mk_response 200 (VideoRoutes.to_json v2)).
    { unfold VideoRoutes.get_video, VideoRoutes.findOne_latest. simpl.
      rewrite H1, H2. reflexivity. }
    rewrite G1, G2. cbn [Http.body].
    destruct (to_json_fields v2) as (Fid & _). rewrite Fid, H2.
    repeat split.
Qed.

Lemma get_video_returns_latest_witness :
  let v1 := VideoRoutes.mk_video 1 (Some "Lesson 1") None None in
  let v2 := VideoRoutes.mk_video 2 (Some "Lesson 2") None None in
  VideoRoutes.get_video [v1; v2]
  = Http.mk_response 200 (VideoRoutes.to_json v2)
  /\ VideoRoutes.get_video [v2; v1]
     = Http.mk_response 200 (VideoRoutes.to_json v2)
  /\ Http.field "_id" (Http.body (VideoRoutes.get_video [v1; v2]))
     = Some (Http.JOid 2)
  /\ Http.field "_id" (Http.body (VideoRoutes.get_video [v2; v1]))
     = Some (Http.JOid 2).
Proof.
  intros v1 v2.
  apply (get_video_returns_latest []); reflexivity.
Defined.

(** ** Account service: how the handlers run on well-formed requests *)

Section Handlers.

Import JS Http.

Variable runSettersOnQuery : bool.
Variable NODE_ENV : option string.

Lemma truthy_str (s : string) : s <> "" -> truthy (str s) = true.
Proof. intro H. simpl. now rewrite (string_eqb_neq _ _ H). Qed.

Lemma absent_or_empty_falsy (v : jsval) :
  Outcome.absent_or_empty v -> truthy v = false.
Proof. now intros [->|[->| ->]]. Qed.

Lemma valid_registration_inv (b : Req.body) :
  Outcome.valid_registration b = true ->
  exists f e p,
    b = Req.mk_body (str f) (str e) (str p) (str p)
    /\ f <> "" /\ e <> "" /\ 6 <= JS.length p
    /\ Api.validate_fullName (Api.set_fullName f) = []
    /\ Api.validate_email (Api.set_email e) = [].
Proof.
  destruct b as [[| |f] [| |e] [| |p] [| |c]]; try discriminate.
  unfold Outcome.valid_registration. simpl. intro H.
  repeat (apply andb_true_iff in H; destruct H as [H ?]).
  exists f, e, p.
  match goal with Hpc : (p =? c)%string = true |- _ =>
    apply String.eqb_eq in Hpc; subst c end.
  repeat match goal with
         | Hn : negb (_ =? _)%string = true |- _ =>
             apply negb_true_iff, String.eqb_neq in Hn
         | Hl : (6 <=? _) = true |- _ => apply Z.leb_le in Hl
         end.
  destruct (Api.validate_fullName (Api.set_fullName f)); [|discriminate].
  destruct (Api.validate_email (Api.set_email e)); [|discriminate].
  repeat split; assumption.
Qed.

Lemma validate_password_ok (p : string) :
  6 <= JS.length p -> Api.validate_password p = [].
Proof.
  intro H. unfold Api.validate_password.
  destruct p as [|c r]; [simpl in H; unfold JS.length in H; simpl in H; lia|].
  simpl (_ =? _)%string.
  destruct (JS.length (String c r) <? 6) eqn:E; [|reflexivity].
  apply Z.ltb_lt in E. lia.
Qed.

(** The registration of [Api] on a request with the four fields present,
    equal passwords of six characters or more and a name and an email the
    schema accepts. *)
Lemma api_register_at_valid (now : Z) (db0 db : Mongo.collection)
    (f e p : string) :
  f <> "" -> e <> "" -> 6 <= JS.length p ->
  Api.validate_fullName (Api.set_fullName f) = [] ->
  Api.validate_email (Api.set_email e) = [] ->
  Api.register_at runSettersOnQuery NODE_ENV now db0 db
    (Req.mk_body (str f) (str e) (str p) (str p))
  = match Api.findOne runSettersOnQuery db0 (toLowerCase e) with
    | Some _ => (db, Api.failure 400 "User already exists with this email")
    | None =>
        if Outcome.taken db (Api.set_email e)
        then (db, Api.failure 400 "Email already registered")
        else let u := Outcome.api_account now db f e p in
             ((db ++ [u])%list, Outcome.api_created u)
    end.
Proof.
  intros Hf He Hp Hvf Hve.
  assert (Hp' : p <> "").
  { intros ->. unfold JS.length in Hp. simpl in Hp. lia. }
  unfold Api.register_at, Api.register_try.
  cbn [Req.fullName Req.email Req.password Req.confirmPassword].
  rewrite !truthy_str by assumption.
  cbn [negb orb strict_eq]. rewrite String.eqb_refl.
  cbn [negb get_length bind].
  destruct (JS.length p <? 6) eqn:E; [apply Z.ltb_lt in E; lia|].
  cbn [call_toLowerCase bind].
  destruct (Api.findOne runSettersOnQuery db0 (toLowerCase e)); [reflexivity|].
  unfold Api.register_create. cbn [call_trim call_toLowerCase bind].
  unfold Api.save, Api.new_User, Api.validate.
  cbn [Mongo.fullName Mongo.email Mongo.password Req.string_of].
  assert (Hn : Api.set_fullName (trim f) = trim f)
    by (unfold Api.set_fullName; apply trim_idem).
  assert (Hm : Api.set_email (trim (toLowerCase e)) = Api.set_email e)
    by apply set_email_idem.
  rewrite Hn, Hm. unfold Api.set_fullName in Hvf.
  rewrite Hvf, Hve, (validate_password_ok p Hp). cbn [app].
  unfold Mongo.insertOne, Outcome.taken. cbn [Mongo.email].
  destruct (existsb _ db); reflexivity.
Qed.

(** The registration of [Legacy] on a request with the four fields
    present and equal passwords of six characters or more. *)
Lemma legacy_register_at_valid (now : Z) (db0 db : Mongo.collection)
    (f e p : string) :
  f <> "" -> e <> "" -> 6 <= JS.length p ->
  Legacy.register_at now db0 db (Req.mk_body (str f) (str e) (str p) (str p))
  = match Mongo.findOne_email db0 e with
    | Some _ => (db, Legacy.failure 400 "User already exists with this email")
    | None =>
        if Outcome.taken db e
        then (db, Legacy.failure 400 "Email already registered")
        else let u := Outcome.legacy_account now db f e p in
             ((db ++ [u])%list, Outcome.legacy_created u)
    end.
Proof.
  intros Hf He Hp.
  assert (Hp' : p <> "").
  { intros ->. unfold JS.length in Hp. simpl in Hp. lia. }
  unfold Legacy.register_at, Legacy.register_try.
  cbn [Req.fullName Req.email Req.password Req.confirmPassword].
  rewrite !truthy_str by assumption.
  cbn [negb orb strict_eq]. rewrite String.eqb_refl.
  cbn [negb get_length bind].
  destruct (JS.length p <? 6) eqn:E; [apply Z.ltb_lt in E; lia|].
  cbn [Legacy.findOne].
  destruct (Mongo.findOne_email db0 e); [reflexivity|].
  unfold Legacy.register_create, Legacy.save, Legacy.validate, Legacy.required.
  rewrite !truthy_str by assumption. cbn [app].
  unfold Legacy.new_User, Mongo.insertOne, Outcome.taken.
  cbn [Mongo.email Req.string_of bind].
  destruct (existsb _ db); reflexivity.
Qed.

(** The rejections of the field checks, the same code in both files. *)
Lemma api_register_rejects (now : Z) (db0 db : Mongo.collection) (b : Req.body) :
  let r := Api.register_at runSettersOnQuery NODE_ENV now db0 db b in
  (truthy (Req.fullName b) && truthy (Req.email b)
     && truthy (Req.password b) && truthy (Req.confirmPassword b) = false ->
   r = (db, Api.failure 400 "All fields are required"))
  /\ (truthy (Req.fullName b) && truthy (Req.email b)
        && truthy (Req.password b) && truthy (Req.confirmPassword b) = true ->
      strict_eq (Req.password b) (Req.confirmPassword b) = false ->
      r = (db, Api.failure 400 "Passwords do not match"))
  /\ (forall p, truthy (Req.fullName b) && truthy (Req.email b)
        && truthy (Req.password b) && truthy (Req.confirmPassword b) = true ->
      strict_eq (Req.password b) (Req.confirmPassword b) = true ->
      Req.password b = str p -> JS.length p < 6 ->
      r = (db, Api.failure 400 "Password must be at least 6 characters")).
Proof.
  unfold Api.register_at, Api.register_try.
  destruct b as [f e p c]. cbn [Req.fullName Req.email Req.password Req.confirmPassword].
  repeat split.
  - intro H.
    destruct (truthy f), (truthy e), (truthy p), (truthy c);
      try discriminate H; reflexivity.
  - intros H1 H2.
    destruct (truthy f), (truthy e), (truthy p), (truthy c);
      try discriminate H1. cbn [negb orb]. now rewrite H2.
  - intros q H1 H2 -> Hq.
    destruct (truthy f), (truthy e), (truthy (str q)), (truthy c);
      try discriminate H1. cbn [negb orb]. rewrite H2.
    cbn [negb get_length bind]. apply Z.ltb_lt in Hq. now rewrite Hq.
Qed.

Lemma legacy_register_rejects (now : Z) (db0 db : Mongo.collection) (b : Req.body) :
  let r := Legacy.register_at now db0 db b in
  (truthy (Req.fullName b) && truthy (Req.email b)
     && truthy (Req.password b) && truthy (Req.confirmPassword b) = false ->
   r = (db, Legacy.failure 400 "All fields are required"))
  /\ (truthy (Req.fullName b) && truthy (Req.email b)
        && truthy (Req.password b) && truthy (Req.confirmPassword b) = true ->
      strict_eq (Req.password b) (Req.confirmPassword b) = false ->
      r = (db, Legacy.failure 400 "Passwords do not match"))
  /\ (forall p, truthy (Req.fullName b) && truthy (Req.email b)
        && truthy (Req.password b) && truthy (Req.confirmPassword b) = true ->
      strict_eq (Req.password b) (Req.confirmPassword b) = true ->
      Req.password b = str p -> JS.length p < 6 ->
      r = (db, Legacy.failure 400 "Password must be at least 6 characters")).
Proof.
  unfold Legacy.register_at, Legacy.register_try.
  destruct b as [f e p c]. cbn [Req.fullName Req.email Req.password Req.confirmPassword].
  repeat split.
  - intro H.
    destruct (truthy f), (truthy e), (truthy p), (truthy c);
      try discriminate H; reflexivity.
  - intros H1 H2.
    destruct (truthy f), (truthy e), (truthy p), (truthy c);
      try discriminate H1. cbn [negb orb]. now rewrite H2.
  - intros q H1 H2 -> Hq.
    destruct (truthy f), (truthy e), (truthy (str q)), (truthy c);
      try discriminate H1. cbn [negb orb]. rewrite H2.
    cbn [negb get_length bind]. apply Z.ltb_lt in Hq. now rewrite Hq.
Qed.

End Handlers.

(** ** Registration: validation *)

Section Validation.

Import JS Http.

Lemma strict_eq_neq (a b : jsval) : a <> b -> strict_eq a b = false.
Proof.
  destruct a as [| |s], b as [| |t]; simpl; intro H;
    try reflexivity; try (now elim H).
  apply String.eqb_neq. intros ->. now apply H.
Qed.

Lemma truthy_all_false (b : Req.body) :
  Outcome.absent_or_empty (Req.fullName b)
  \/ Outcome.absent_or_empty (Req.email b)
  \/ Outcome.absent_or_empty (Req.password b)
  \/ Outcome.absent_or_empty (Req.confirmPassword b) ->
  truthy (Req.fullName b) && truthy (Req.email b)
    && truthy (Req.password b) && truthy (Req.confirmPassword b) = false.
Proof.
  intros [H|[H|[H|H]]]; apply absent_or_empty_falsy in H; rewrite H;
    repeat (rewrite ?andb_false_r, ?andb_false_l); reflexivity.
Qed.


End Validation.

(** ** Registration: the field checks on fields of any JSON type *)

Section WideBodies.

Variable object_length_lt : string -> Z -> bool.
Variable object_filter : string -> option (Mongo.user -> bool).
Variable cast_message : string -> string -> string.
Variable runSettersOnQuery : bool.
Variable NODE_ENV : option string.

(** On fields that are text or missing the handlers of [Wide] are the
    handlers of [Api] and [Legacy]. *)
Lemma wide_api_register_at (now : Z) (db0 db : Mongo.collection)
    (b : Req.body) :
  Wide.api_register_at object_length_lt cast_message runSettersOnQuery
    NODE_ENV now db0 db (Wide.inject_body b)
  = Api.register_at runSettersOnQuery NODE_ENV now db0 db b.
Proof.
  destruct b as [[| |f] [| |e] [| |p] [| |c]]; reflexivity.
Qed.

Lemma wide_legacy_register_at (now : Z) (db0 db : Mongo.collection)
    (b : Req.body) :
  Wide.legacy_register_at object_length_lt object_filter cast_message
    now db0 db (Wide.inject_body b)
  = Legacy.register_at now db0 db b.
Proof.
  destruct b as [[| |f] [| |e] [| |p] [| |c]]; reflexivity.
Qed.


End WideBodies.



(** C2, where the code breaks it. The length check reads [password.length]:
    a number has none, and [undefined < 6] is false. With [password] and
    [confirmPassword] the number 12345, five characters once cast to the
    string the schema stores, the three field checks pass in both
    applications. [server.js] creates the account, with the password
    ["12345"], and answers 201. The application of [routes/videoRoutes.js]
    answers by what comes after the checks: 400 "User already exists with
    this email", a conflict, when the email is registered; the 400 of the
    schema validator when it is not; 500 when the email is a number too. *)
Theorem register_numeric_password_passes_length_check
    (object_length_lt : string -> Z -> bool)
    (object_filter : string -> option (Mongo.user -> bool))
    (cast_message : string -> string -> string)
    (runSettersOnQuery : bool) (NODE_ENV : option string) :
  let b := Wide.mk_body (Wide.str "Asha Rao") (Wide.str "asha@example.com")
                        (Wide.num "12345") (Wide.num "12345") in
  let b5 := Wide.mk_body (Wide.str "Asha Rao") (Wide.num "5")
                         (Wide.num "12345") (Wide.num "12345") in
  let u := Mongo.mk_user 1 "Asha" "asha@example.com" "s3cret!" 10 None in
  let legacy := Wide.legacy_register_at object_length_lt object_filter
                  cast_message in
  let api := Wide.api_register_at object_length_lt cast_message
               runSettersOnQuery NODE_ENV in
  Wide.length_lt object_length_lt (Wide.password b) 6 = JS.Ok false
  /\ JS.length (Wide.string_of (Wide.password b)) < 6
  /\ Http.status (snd (legacy 20 [] [] b)) = 201
  /\ fst (legacy 20 [] [] b)
     = [Mongo.mk_user 1 "Asha Rao" "asha@example.com" "12345" 20 None]
  /\ Outcome.kind_of (snd (legacy 20 [] [] b)) <> Outcome.ValidationError
  /\ snd (api 20 [u] [u] b)
     = Api.failure 400 "User already exists with this email"
  /\ Outcome.kind_of (snd (api 20 [u] [u] b)) = Outcome.ConflictError
  /\ snd (api 20 [] [] b)
     = Api.failure 400 "Password must be at least 6 characters"
  /\ Http.status (snd (api 20 [] [] b5)) = 500.
Proof.
  cbv zeta.
  assert (Hfind : Api.findOne runSettersOnQuery
                    [Mongo.mk_user 1 "Asha" "asha@example.com" "s3cret!" 10 None]
                    (JS.toLowerCase "asha@example.com")
                  = Some (Mongo.mk_user 1 "Asha" "asha@example.com" "s3cret!"
                                        10 None))
    by (destruct runSettersOnQuery; reflexivity).
  assert (Hnone : Api.findOne runSettersOnQuery []
                    (JS.toLowerCase "asha@example.com") = None)
    by reflexivity.
  split; [reflexivity|]. split; [vm_compute; reflexivity|].
  split; [reflexivity|]. split; [reflexivity|].
  split; [vm_compute; discriminate|].
  assert (Hu : snd (Wide.api_register_at object_length_lt cast_message
                      runSettersOnQuery NODE_ENV 20
                      [Mongo.mk_user 1 "Asha" "asha@example.com" "s3cret!" 10 None]
                      [Mongo.mk_user 1 "Asha" "asha@example.com" "s3cret!" 10 None]
                      (Wide.mk_body (Wide.str "Asha Rao")
                         (Wide.str "asha@example.com") (Wide.num "12345")
                         (Wide.num "12345")))
               = Api.failure 400 "User already exists with this email").
  { unfold Wide.api_register_at, Wide.api_register_try.
    cbn [Wide.fullName Wide.email Wide.password Wide.confirmPassword
         Wide.truthy Wide.strict_eq Wide.length_lt Wide.call_toLowerCase
         JS.bind].
    cbn [String.eqb Ascii.eqb Bool.eqb negb orb].
    now rewrite Hfind. }
  split; [exact Hu|]. split; [rewrite Hu; reflexivity|].
  split.
  - unfold Wide.api_register_at, Wide.api_register_try.
    cbn [Wide.fullName Wide.email Wide.password Wide.confirmPassword
         Wide.truthy Wide.strict_eq Wide.length_lt Wide.call_toLowerCase
         JS.bind].
    cbn [String.eqb Ascii.eqb Bool.eqb negb orb].
    rewrite Hnone. reflexivity.
  - reflexivity.
Qed.

(** ** Login *)

Section LoginRuns.

Import JS Http.

Variable runSettersOnQuery : bool.
Variable NODE_ENV : option string.

Lemma api_login_present (now : Z) (db : Mongo.collection) (b : Req.body)
    (e p : string) :
  Req.email b = str e -> Req.password b = str p -> e <> "" -> p <> "" ->
  Api.login runSettersOnQuery NODE_ENV now db b
  = match Api.findOne runSettersOnQuery db (toLowerCase e) with
    | None => (db, Api.failure 401 "Invalid email or password")
    | Some user =>
        if (Mongo.password user =? p)%string
        then
          match Api.validate user with
          | [] =>
              (Mongo.set_lastLogin db (Mongo._id user) now,
               mk_response 200
                 (JObj [("success", JBool true);
                        ("message", JStr "Login successful!");
                        ("user", JObj [("id", JOid (Mongo._id user));
                                       ("fullName", JStr (Mongo.fullName user));
                                       ("email", JStr (Mongo.email user));
                                       ("lastLogin", JDate now)])]))
          | errors =>
              (db, Api.server_error NODE_ENV "Server error during login"
                     (Mongo.ValidationError "User" errors))
          end
        else (db, Api.failure 401 "Invalid email or password")
    end.
Proof.
  intros He Hp Hne Hnp. unfold Api.login, Api.login_try.
  rewrite He, Hp, !truthy_str by assumption.
  cbn [negb orb call_toLowerCase bind strict_eq].
  destruct (Api.findOne runSettersOnQuery db (toLowerCase e)) as [u|];
    [|reflexivity].
  destruct (Mongo.password u =? p)%string; [|reflexivity].
  cbn [negb]. unfold Api.save_lastLogin.
  destruct (Api.validate u); reflexivity.
Qed.

Lemma legacy_login_present (db : Mongo.collection) (b : Req.body)
    (e p : string) :
  Req.email b = str e -> Req.password b = str p -> e <> "" -> p <> "" ->
  Legacy.login db b
  = match Mongo.findOne_email db e with
    | None => (db, Legacy.failure 401 "Invalid email or password")
    | Some user =>
        if (Mongo.password user =? p)%string
        then
          (db,
           mk_response 200
             (JObj [("success", JBool true);
                    ("message", JStr "Login successful!");
                    ("user", JObj [("id", JOid (Mongo._id user));
                                   ("fullName", JStr (Mongo.fullName user));
                                   ("email", JStr (Mongo.email user))])]))
        else (db, Legacy.failure 401 "Invalid email or password")
    end.
Proof.
  intros He Hp Hne Hnp. unfold Legacy.login, Legacy.login_try.
  rewrite He, Hp, !truthy_str by assumption.
  cbn [negb orb Legacy.findOne strict_eq].
  destruct (Mongo.findOne_email db e) as [u|]; [|reflexivity].
  destruct (Mongo.password u =? p)%string; reflexivity.
Qed.

(** A login the field check rejects: the same answer from both files. *)
Lemma login_missing_field (now : Z) (db : Mongo.collection) (b : Req.body) :
  truthy (Req.email b) && truthy (Req.password b) = false ->
  Api.login runSettersOnQuery NODE_ENV now db b
  = (db, Api.failure 400 "Email and password are required")
  /\ Legacy.login db b
     = (db, Legacy.failure 400 "Email and password are required").
Proof.
  intro H. unfold Api.login, Api.login_try, Legacy.login, Legacy.login_try.
  destruct (truthy (Req.email b)), (truthy (Req.password b));
    try discriminate H; split; reflexivity.
Qed.

End LoginRuns.

(** C3. A login whose email matches no account and a login whose email
    matches an account under another password (both with the two fields
    present) get the same answer, status 401 with the message "Invalid email
    or password", and leave the collection as it was: in both
    applications. *)
Theorem login_failures_indistinguishable
    (runSettersOnQuery : bool) (NODE_ENV : option string) (now1 now2 : Z)
    (db1 db2 : Mongo.collection) (b1 b2 : Req.body) (e1 p1 e2 p2 : string)
    (u : Mongo.user) :
  Req.email b1 = JS.str e1 -> Req.password b1 = JS.str p1 ->
  Req.email b2 = JS.str e2 -> Req.password b2 = JS.str p2 ->
  e1 <> "" -> p1 <> "" -> e2 <> "" -> p2 <> "" ->
  Mongo.password u <> p2 ->
  (Api.findOne runSettersOnQuery db1 (JS.toLowerCase e1) = None ->
   Api.findOne runSettersOnQuery db2 (JS.toLowerCase e2) = Some u ->
   let r1 := Api.login runSettersOnQuery NODE_ENV now1 db1 b1 in
   let r2 := Api.login runSettersOnQuery NODE_ENV now2 db2 b2 in
   snd r1 = snd r2
   /\ snd r1
      = Http.mk_response 401
          (Http.JObj [("success", Http.JBool false);
                      ("message", Http.JStr "Invalid email or password")])
   /\ Outcome.kind_of (snd r1) = Outcome.AuthError
   /\ fst r1 = db1 /\ fst r2 = db2)
  /\ (Mongo.findOne_email db1 e1 = None ->
      Mongo.findOne_email db2 e2 = Some u ->
      let r1 := Legacy.login db1 b1 in
      let r2 := Legacy.login db2 b2 in
      snd r1 = snd r2
      /\ snd r1
         = Http.mk_response 401
             (Http.JObj [("success", Http.JBool false);
                         ("message", Http.JStr "Invalid email or password")])
      /\ Outcome.kind_of (snd r1) = Outcome.AuthError
      /\ fst r1 = db1 /\ fst r2 = db2).
Proof.
  intros He1 Hp1 He2 Hp2 Hn1 Hm1 Hn2 Hm2 Hwrong.
  apply String.eqb_neq in Hwrong.
  split; intros Hnone Hsome; cbv zeta.
  - rewrite (api_login_present _ NODE_ENV now1 db1 b1 e1 p1) by assumption.
    rewrite (api_login_present _ NODE_ENV now2 db2 b2 e2 p2) by assumption.
    rewrite Hnone, Hsome, Hwrong. repeat split.
  - rewrite (legacy_login_present db1 b1 e1 p1) by assumption.
    rewrite (legacy_login_present db2 b2 e2 p2) by assumption.
    rewrite Hnone, Hsome, Hwrong. repeat split.
Qed.

Lemma login_failures_indistinguishable_witness :
  let u := Mongo.mk_user 1 "Ravi" "ravi@example.com" "s3cret!" 10 None in
  let b1 := Req.mk_body JS.undefined (JS.str "nobody@example.com")
                        (JS.str "s3cret!") JS.undefined in
  let b2 := Req.mk_body JS.undefined (JS.str "ravi@example.com")
                        (JS.str "guess") JS.undefined in
  snd (Api.login true None 20 [u] b1) = snd (Api.login true None 30 [u] b2)
  /\ snd (Legacy.login [u] b1) = snd (Legacy.login [u] b2).
Proof.
  intros u b1 b2.
  destruct (login_failures_indistinguishable true None 20 30 [u] [u] b1 b2
              "nobody@example.com" "s3cret!" "ravi@example.com" "guess" u)
    as [HA HL]; try reflexivity; try discriminate.
  split.
  - apply HA; reflexivity.
  - apply HL; reflexivity.
Defined.

(** ** Registration: the unique key *)

Section UniqueKey.

Import JS Http.

Lemma find_none_not_taken (db : Mongo.collection) (key : string) :
  Mongo.findOne_email db key = None <-> Outcome.taken db key = false.
Proof.
  unfold Mongo.findOne_email, Outcome.taken.
  induction db as [|u r IH]; simpl; [tauto|].
  destruct (Mongo.email u =? key)%string; simpl; [split; discriminate|exact IH].
Qed.

Lemma taken_app (db : Mongo.collection) (u : Mongo.user) (key : string) :
  Outcome.taken (db ++ [u])%list key
  = Outcome.taken db key || (Mongo.email u =? key)%string.
Proof.
  unfold Outcome.taken. rewrite existsb_app. simpl. now rewrite orb_false_r.
Qed.

Lemma not_taken_fresh (db : Mongo.collection) (key : string) :
  (forall u, In u db -> Mongo.email u <> key) -> Outcome.taken db key = false.
Proof.
  intro H. unfold Outcome.taken.
  destruct (existsb _ db) eqn:E; [|reflexivity].
  apply existsb_exists in E. destruct E as [u [Hin Heq]].
  apply String.eqb_eq in Heq. now elim (H u Hin).
Qed.

End UniqueKey.

(** C5. A registration request that the field checks accept and whose
    existence query finds no account, but whose insertion meets an account
    under the same unique key (written between the two awaits, or stored
    under the trimmed form of an email the query looked up untrimmed), is
    answered 400 "Email already registered", a [ConflictError] and not the
    500 of the other errors, the collection left as the insertion found it:
    in both applications. *)
Theorem register_duplicate_key_is_conflict
    (runSettersOnQuery : bool) (NODE_ENV : option string) (now : Z)
    (db0 db : Mongo.collection) (f e p : string) :
  f <> "" -> e <> "" -> 6 <= JS.length p ->
  let b := Req.mk_body (JS.str f) (JS.str e) (JS.str p) (JS.str p) in
  (Api.validate_fullName (Api.set_fullName f) = [] ->
   Api.validate_email (Api.set_email e) = [] ->
   Api.findOne runSettersOnQuery db0 (JS.toLowerCase e) = None ->
   Outcome.taken db (Api.set_email e) = true ->
   let r := Api.register_at runSettersOnQuery NODE_ENV now db0 db b in
   r = (db, Http.mk_response 400
              (Http.JObj [("success", Http.JBool false);
                          ("message", Http.JStr "Email already registered")]))
   /\ Outcome.kind_of (snd r) = Outcome.ConflictError)
  /\ (Mongo.findOne_email db0 e = None ->
      Outcome.taken db e = true ->
      let r := Legacy.register_at now db0 db b in
      r = (db, Http.mk_response 400
                 (Http.JObj [("success", Http.JBool false);
                             ("message", Http.JStr "Email already registered")]))
      /\ Outcome.kind_of (snd r) = Outcome.ConflictError).
Proof.
  intros Hf He Hp b. split.
  - intros Hvf Hve Hnone Htaken. cbv zeta. unfold b.
    rewrite (api_register_at_valid _ NODE_ENV now db0 db f e p) by assumption.
    rewrite Hnone, Htaken. split; reflexivity.
  - intros Hnone Htaken. cbv zeta. unfold b.
    rewrite (legacy_register_at_valid now db0 db f e p) by assumption.
    rewrite Hnone, Htaken. split; reflexivity.
Qed.

Lemma register_duplicate_key_is_conflict_witness :
  let u := Mongo.mk_user 1 "Ravi" "ravi@example.com" "s3cret!" 10 None in
  let spaced := Req.mk_body (JS.str "Ravi K") (JS.str "Ravi@Example.com ")
                            (JS.str "another1") (JS.str "another1") in
  let plain := Req.mk_body (JS.str "Ravi K") (JS.str "ravi@example.com")
                           (JS.str "another1") (JS.str "another1") in
  Outcome.kind_of (snd (Api.register false None 20 [u] spaced))
  = Outcome.ConflictError
  /\ Outcome.kind_of (snd (Legacy.register_at 20 [] [u] plain))
     = Outcome.ConflictError.
Proof.
  intros u spaced plain. split.
  - apply (register_duplicate_key_is_conflict false None 20 [u] [u]
             "Ravi K" "Ravi@Example.com " "another1");
      solve [discriminate | reflexivity].
  - apply (register_duplicate_key_is_conflict false None 20 [] [u]
             "Ravi K" "ravi@example.com" "another1");
      solve [discriminate | reflexivity].
Defined.

(** C1, as the code has it. In the application of
    [routes/videoRoutes.js], of two valid registration requests whose emails
    are equal after lowercasing, the first, on a collection that holds no
    account under that email (up to case and surrounding white space), is
    answered 201 and stores the email lowercased and trimmed; the second is
    answered 400 with a conflict message, from the existence query or from
    the unique index, and stores nothing. The existence query is given the
    lowercased email (a collection in which it finds an account makes the
    registration a conflict), the stored record the lowercased and trimmed
    one; the two requests have the same stored key. *)
Theorem register_twice_same_key
    (runSettersOnQuery : bool) (NODE_ENV : option string) (now1 now2 : Z)
    (db : Mongo.collection) (b1 b2 : Req.body) (e1 e2 : string) :
  Outcome.valid_registration b1 = true ->
  Outcome.valid_registration b2 = true ->
  Req.email b1 = JS.str e1 -> Req.email b2 = JS.str e2 ->
  JS.toLowerCase e1 = JS.toLowerCase e2 ->
  (forall u, In u db -> Api.set_email (Mongo.email u) <> Api.set_email e1) ->
  let r1 := Api.register runSettersOnQuery NODE_ENV now1 db b1 in
  let r2 := Api.register runSettersOnQuery NODE_ENV now2 (fst r1) b2 in
  Http.status (snd r1) = 201
  /\ Outcome.kind_of (snd r1) = Outcome.Success
  /\ (exists u, fst r1 = (db ++ [u])%list
                /\ Mongo.email u = JS.trim (JS.toLowerCase e1))
  /\ Http.status (snd r2) = 400
  /\ Outcome.kind_of (snd r2) = Outcome.ConflictError
  /\ fst r2 = fst r1
  /\ JS.trim (JS.toLowerCase e1) = JS.trim (JS.toLowerCase e2)
  /\ (forall db0 db' existingUser,
        Api.findOne runSettersOnQuery db0 (JS.toLowerCase e1)
        = Some existingUser ->
        Api.register_at runSettersOnQuery NODE_ENV now1 db0 db' b1
        = (db', Api.failure 400 "User already exists with this email")).
Proof.
  intros Hv1 Hv2 He1 He2 Hlow Hfresh.
  apply valid_registration_inv in Hv1, Hv2.
  destruct Hv1 as (f1 & e1' & p1 & -> & Hf1 & Hne1 & Hp1 & Hvf1 & Hve1).
  destruct Hv2 as (f2 & e2' & p2 & -> & Hf2 & Hne2 & Hp2 & Hvf2 & Hve2).
  simpl in He1, He2. injection He1 as ->. injection He2 as ->.
  assert (Hkey : Api.set_email e1 = Api.set_email e2)
    by (unfold Api.set_email; now rewrite Hlow).
  (* the first registration *)
  assert (Hnone : Api.findOne runSettersOnQuery db (JS.toLowerCase e1) = None).
  { unfold Api.findOne. apply find_none_not_taken, not_taken_fresh.
    intros u Hin Heq. apply (Hfresh u Hin). rewrite Heq.
    destruct runSettersOnQuery.
    - now rewrite set_email_idem, set_email_lower.
    - apply set_email_lower. }
  assert (Hfree : Outcome.taken db (Api.set_email e1) = false).
  { apply not_taken_fresh. intros u Hin Heq. apply (Hfresh u Hin).
    rewrite Heq. apply set_email_idem. }
  set (u1 := Outcome.api_account now1 db f1 e1 p1).
  assert (Hr1 : Api.register runSettersOnQuery NODE_ENV now1 db
                  (Req.mk_body (JS.str f1) (JS.str e1) (JS.str p1) (JS.str p1))
                = ((db ++ [u1])%list, Outcome.api_created u1)).
  { unfold Api.register.
    rewrite (api_register_at_valid _ NODE_ENV now1 db db f1 e1 p1) by assumption.
    now rewrite Hnone, Hfree. }
  cbv zeta. rewrite Hr1. cbn [fst snd].
  split; [reflexivity|]. split; [reflexivity|].
  split; [exists u1; split; reflexivity|].
  (* the second registration *)
  unfold Api.register.
  rewrite (api_register_at_valid _ NODE_ENV now2 _ _ f2 e2 p2) by assumption.
  assert (Htaken : Outcome.taken (db ++ [u1])%list (Api.set_email e2) = true).
  { rewrite taken_app. unfold u1. cbn [Outcome.api_account Mongo.email].
    rewrite Hkey, String.eqb_refl. apply orb_true_r. }
  rewrite Htaken.
  assert (Hquery : forall db0 db' existingUser,
             Api.findOne runSettersOnQuery db0 (JS.toLowerCase e1)
             = Some existingUser ->
             Api.register_at runSettersOnQuery NODE_ENV now1 db0 db'
               (Req.mk_body (JS.str f1) (JS.str e1) (JS.str p1) (JS.str p1))
             = (db', Api.failure 400 "User already exists with this email")).
  { intros db0 db' x Hx.
    rewrite (api_register_at_valid _ NODE_ENV now1 db0 db' f1 e1 p1)
      by assumption.
    now rewrite Hx. }
  destruct (Api.findOne runSettersOnQuery (db ++ [u1])%list (JS.toLowerCase e2));
    cbn [fst snd]; repeat split; solve [exact Hkey | exact Hquery].
Qed.

Lemma register_twice_same_key_witness :
  let b1 := Req.mk_body (JS.str "Asha Rao") (JS.str "A@B.com")
                        (JS.str "secret1") (JS.str "secret1") in
  let b2 := Req.mk_body (JS.str "Asha R.") (JS.str "a@b.com")
                        (JS.str "secret2") (JS.str "secret2") in
  let r1 := Api.register true None 10 [] b1 in
  let r2 := Api.register true None 20 (fst r1) b2 in
  Http.status (snd r1) = 201
  /\ Outcome.kind_of (snd r2) = Outcome.ConflictError
  /\ fst r2 = fst r1.
Proof.
  intros b1 b2.
  destruct (register_twice_same_key true None 10 20 [] b1 b2 "A@B.com"
              "a@b.com")
    as (H1 & _ & _ & _ & H2 & H3 & _); try reflexivity.
  - intros u [].
  - split; [exact H1 | split; [exact H2 | exact H3]].
Defined.

(** C1, as stated, fails on [server.js]: the emails [A@B.com] and [a@b.com]
    are equal after lowercasing, and both registrations are answered 201 and
    stored, under two keys. *)
Lemma legacy_register_keeps_case :
  let b1 := Req.mk_body (JS.str "Asha Rao") (JS.str "A@B.com")
                        (JS.str "secret1") (JS.str "secret1") in
  let b2 := Req.mk_body (JS.str "Asha Rao") (JS.str "a@b.com")
                        (JS.str "secret1") (JS.str "secret1") in
  let r1 := Legacy.register 10 [] b1 in
  let r2 := Legacy.register 20 (fst r1) b2 in
  JS.toLowerCase "A@B.com" = JS.toLowerCase "a@b.com"
  /\ Outcome.kind_of (snd r1) = Outcome.Success
  /\ Http.status (snd r2) = 201
  /\ Outcome.kind_of (snd r2) <> Outcome.ConflictError
  /\ map Mongo.email (fst r2) = ["A@B.com"; "a@b.com"].
Proof.
  cbv zeta. repeat split. vm_compute. discriminate.
Qed.

(** ** Login: the write *)

Section LoginWrite.

Import JS Http.

Variable runSettersOnQuery : bool.
Variable NODE_ENV : option string.

Lemma set_lastLogin_frame (db : Mongo.collection) (id : N) (t : Z) :
  Forall2 (Outcome.login_frame t) db (Mongo.set_lastLogin db id t).
Proof.
  assert (Hsame : forall u, Outcome.login_frame t u u).
  { intro u. unfold Outcome.login_frame. intuition. }
  assert (Hrefl : forall l, Forall2 (Outcome.login_frame t) l l).
  { induction l; constructor; auto. }
  induction db as [|u r IH]; simpl; [constructor|].
  destruct (Mongo._id u =? id)%N; constructor; auto.
  unfold Outcome.login_frame. simpl. intuition.
Qed.

Lemma set_lastLogin_ids (db : Mongo.collection) (id : N) (t : Z) :
  map Mongo._id (Mongo.set_lastLogin db id t) = map Mongo._id db.
Proof.
  induction db as [|u r IH]; simpl; [reflexivity|].
  destruct (Mongo._id u =? id)%N; simpl; [reflexivity | now rewrite IH].
Qed.

(** The store a login leaves: the one it found, or that one after the
    single update of a [lastLogin]. *)
Lemma api_login_store (now : Z) (db : Mongo.collection) (b : Req.body) :
  fst (Api.login runSettersOnQuery NODE_ENV now db b) = db
  \/ exists id,
       fst (Api.login runSettersOnQuery NODE_ENV now db b)
       = Mongo.set_lastLogin db id now.
Proof.
  unfold Api.login, Api.login_try.
  destruct (negb (truthy (Req.email b)) || negb (truthy (Req.password b)));
    [now left|].
  destruct (Req.email b) as [| |e]; cbn [call_toLowerCase bind];
    try (now left).
  destruct (Api.findOne runSettersOnQuery db (toLowerCase e)) as [u|];
    [|now left].
  destruct (negb (strict_eq (str (Mongo.password u)) (Req.password b)));
    [now left|].
  unfold Api.save_lastLogin. destruct (Api.validate u); [|now left].
  right. now exists (Mongo._id u).
Qed.

(** The store a registration leaves: the one it found, or that one with
    one new account, created at [now] and never logged in. *)
Lemma api_register_store (now : Z) (db : Mongo.collection) (b : Req.body) :
  fst (Api.register runSettersOnQuery NODE_ENV now db b) = db
  \/ exists f e p,
       fst (Api.register runSettersOnQuery NODE_ENV now db b)
       = (db ++ [Mongo.mk_user (Mongo.new_ObjectId db) f e p now None])%list.
Proof.
  unfold Api.register, Api.register_at, Api.register_try.
  destruct (negb (truthy (Req.fullName b)) || negb (truthy (Req.email b))
            || negb (truthy (Req.password b))
            || negb (truthy (Req.confirmPassword b))); [now left|].
  destruct (negb (strict_eq (Req.password b) (Req.confirmPassword b)));
    [now left|].
  destruct (Req.password b) as [| |p]; cbn [get_length bind]; try (now left).
  destruct (JS.length p <? 6); [now left|].
  destruct (Req.email b) as [| |e]; cbn [call_toLowerCase bind];
    try (now left).
  destruct (Api.findOne runSettersOnQuery db (toLowerCase e)); [now left|].
  unfold Api.register_create.
  destruct (Req.fullName b) as [| |f]; cbn [call_trim call_toLowerCase bind];
    try (now left).
  unfold Api.save.
  destruct (Api.validate _); [|now left].
  unfold Mongo.insertOne. destruct (existsb _ db); [now left|].
  right. cbn [bind fst]. unfold Api.new_User. eauto.
Qed.

Lemma new_ObjectId_fresh (db : Mongo.collection) (u : Mongo.user) :
  In u db -> (Mongo._id u < Mongo.new_ObjectId db)%N.
Proof.
  unfold Mongo.new_ObjectId. induction db as [|v r IH]; simpl; [tauto|].
  intros [->|H]; [lia|]. specialize (IH H). lia.
Qed.

Lemma well_timed_later (t now : Z) (db : Mongo.collection) :
  t <= now -> Outcome.well_timed t db -> Outcome.well_timed now db.
Proof.
  intros Hle [Hnd Hall]. split; [exact Hnd|].
  eapply Forall_impl; [|exact Hall]. cbn beta. intros u [H1 H2].
  split; [lia | exact H2].
Qed.

Lemma well_timed_set_lastLogin (now : Z) (db : Mongo.collection) (id : N) :
  Outcome.well_timed now db ->
  Outcome.well_timed now (Mongo.set_lastLogin db id now).
Proof.
  intros [Hnd Hall]. split; [now rewrite set_lastLogin_ids|].
  clear Hnd. induction Hall as [|u r [H1 H2] Hr IH]; simpl; [constructor|].
  destruct (Mongo._id u =? id)%N; constructor; auto; simpl.
  split; [exact H1|]. intros l Hl. injection Hl as <-. exact H1.
Qed.

Lemma well_timed_insert (now : Z) (db : Mongo.collection) (f e p : string) :
  Outcome.well_timed now db ->
  Outcome.well_timed now
    (db ++ [Mongo.mk_user (Mongo.new_ObjectId db) f e p now None])%list.
Proof.
  intros [Hnd Hall]. split.
  - rewrite map_app. simpl. apply NoDup_app; [exact Hnd| | ].
    + constructor; [intros []|constructor].
    + intros x Hx [<-|[]]. apply in_map_iff in Hx.
      destruct Hx as [u [Heq Hin]]. apply new_ObjectId_fresh in Hin.
      rewrite Heq in Hin. lia.
  - apply Forall_app. split; [exact Hall|]. constructor; [|constructor].
    simpl. split; [lia | discriminate].
Qed.

(** The invariant of the collections the service reaches. *)
Lemma reachable_well_timed (t : Z) (db : Mongo.collection) :
  Api.reachable runSettersOnQuery NODE_ENV t db -> Outcome.well_timed t db.
Proof.
  induction 1 as [t|t now db req Hr IH Hle].
  - split; constructor.
  - apply (well_timed_later t now) in IH; [|exact Hle].
    destruct req as [b|b]; cbn [Api.handle].
    + destruct (api_register_store now db b) as [->|(f & e & p & ->)];
        [exact IH | now apply well_timed_insert].
    + destruct (api_login_store now db b) as [->|(id & ->)];
        [exact IH | now apply well_timed_set_lastLogin].
Qed.

(** Under unique identifiers, the query that found an account finds it
    again after the update, with its [lastLogin] set. *)
Lemma find_set_lastLogin (db : Mongo.collection) (key : string)
    (u : Mongo.user) (t : Z) :
  NoDup (map Mongo._id db) ->
  Mongo.findOne_email db key = Some u ->
  Mongo.findOne_email (Mongo.set_lastLogin db (Mongo._id u) t) key
  = Some (Outcome.logged_in u t).
Proof.
  unfold Mongo.findOne_email.
  induction db as [|w r IH]; simpl; [discriminate|].
  intros Hnd Hfind. inversion Hnd as [|? ? Hnot Hnd']; subst.
  destruct (Mongo.email w =? key)%string eqn:Ew.
  - injection Hfind as ->. rewrite N.eqb_refl. simpl. now rewrite Ew.
  - assert (Hin : In u r) by (apply find_some in Hfind; tauto).
    destruct (Mongo._id w =? Mongo._id u)%N eqn:Eid.
    + apply N.eqb_eq in Eid. exfalso. apply Hnot. rewrite Eid.
      now apply in_map.
    + simpl. rewrite Ew. now apply IH.
Qed.

End LoginWrite.

(** C10. A login of the application of [routes/videoRoutes.js] leaves every
    stored account with its [_id], [fullName], [email], [password] and
    [createdAt], account by account and in the same order; the [lastLogin]
    of an account is as it was or is the clock reading of the login. A
    successful login is one update of the [lastLogin] of the account it
    found. *)
Theorem login_changes_only_lastLogin
    (runSettersOnQuery : bool) (NODE_ENV : option string) (now : Z)
    (db : Mongo.collection) (b : Req.body) :
  let r := Api.login runSettersOnQuery NODE_ENV now db b in
  Forall2 (Outcome.login_frame now) db (fst r)
  /\ (Http.status (snd r) = 200 ->
      exists e u,
        Req.email b = JS.str e
        /\ Api.findOne runSettersOnQuery db (JS.toLowerCase e) = Some u
        /\ fst r = Mongo.set_lastLogin db (Mongo._id u) now).
Proof.
  cbv zeta. split.
  - destruct (api_login_store runSettersOnQuery NODE_ENV now db b)
      as [->|[id ->]].
    + assert (Hsame : forall u, Outcome.login_frame now u u)
        by (intro u; unfold Outcome.login_frame; intuition).
      induction db; constructor; auto.
    + apply set_lastLogin_frame.
  - unfold Api.login, Api.login_try.
    destruct (negb (JS.truthy (Req.email b)) || negb (JS.truthy (Req.password b)));
      [cbn; intro H; discriminate H|].
    destruct (Req.email b) as [| |e]; cbn [JS.call_toLowerCase JS.bind];
      try (cbn; intro H; discriminate H).
    destruct (Api.findOne runSettersOnQuery db (JS.toLowerCase e)) as [u|] eqn:E;
      [|cbn; intro H; discriminate H].
    destruct (negb (JS.strict_eq (JS.str (Mongo.password u)) (Req.password b)));
      [cbn; intro H; discriminate H|].
    unfold Api.save_lastLogin.
    destruct (Api.validate u); [|cbn; intro H; discriminate H].
    intros _. exists e, u. repeat split. exact E.
Qed.

Lemma login_changes_only_lastLogin_witness :
  let u := Mongo.mk_user 1 "Ravi K" "ravi@example.com" "s3cret!" 10 None in
  let v := Mongo.mk_user 2 "Asha Rao" "asha@example.com" "secret1" 12 (Some 15) in
  let b := Req.mk_body JS.undefined (JS.str "ravi@example.com")
                       (JS.str "s3cret!") JS.undefined in
  exists (e : string) (w : Mongo.user),
    Req.email b = JS.str e
    /\ Api.findOne false [v; u] (JS.toLowerCase e) = Some w
    /\ fst (Api.login false None 25 [v; u] b)
       = Mongo.set_lastLogin [v; u] (Mongo._id w) 25.
Proof.
  intros u v b.
  apply (login_changes_only_lastLogin false None 25 [v; u] b).
  reflexivity.
Defined.

(** ** The two applications side by side *)

Section TwoApplications.

Import JS Http.

Variable runSettersOnQuery : bool.
Variable NODE_ENV : option string.

Lemma normalized_lower (e : string) : Api.set_email e = e -> toLowerCase e = e.
Proof.
  unfold Api.set_email. intro H.
  rewrite <- H at 1. now rewrite <- trim_lower, toLowerCase_idem.
Qed.

(** On an email that is already lowercase and trimmed the two existence
    queries are the same query. *)
Lemma findOne_normalized (db : Mongo.collection) (e : string) :
  Api.set_email e = e ->
  Api.findOne runSettersOnQuery db (toLowerCase e) = Mongo.findOne_email db e.
Proof.
  intro H. unfold Api.findOne. rewrite (normalized_lower e H).
  destruct runSettersOnQuery; now rewrite ?H.
Qed.

End TwoApplications.

(** C6, as stated, fails: on the empty collection the registration of
    [A@B.com] stores [A@B.com] in [server.js] and [a@b.com] in the other
    application, and the two user views differ; a successful login leaves
    [lastLogin] unset in [server.js] and set in the other application. *)
Lemma applications_differ :
  let reg := Req.mk_body (JS.str "Asha Rao") (JS.str "A@B.com")
                         (JS.str "secret1") (JS.str "secret1") in
  let u := Mongo.mk_user 1 "Ravi K" "ravi@example.com" "s3cret!" 10 None in
  let b := Req.mk_body JS.undefined (JS.str "ravi@example.com")
                       (JS.str "s3cret!") JS.undefined in
  ~ Outcome.same_outcome (Legacy.register 10 [] reg)
                         (Api.register true None 10 [] reg)
  /\ ~ Outcome.same_outcome (Legacy.login [u] b) (Api.login true None 25 [u] b).
Proof.
  cbv zeta. split; intros (_ & H1 & H2 & _); vm_compute in H1, H2; discriminate.
Qed.

(** C6, as the code has it. The two applications give the same answer and
    leave the collection as it was on every registration and every login
    that the field checks reject. On a login whose email is already
    lowercase and trimmed, the account under that email, if there is one,
    passing the validators of the schema of [routes/videoRoutes.js], they
    send the same status and message and the same [id], [fullName] and
    [email], the same answer when it is a failure; [server.js] leaves the
    collection as it was. On a valid registration whose name is trimmed and
    whose email is lowercase and trimmed they send the same status and
    message and the same [fullName] and [email], and leave collections that
    differ at most in the identifier of the new account. *)
Theorem applications_agree
    (runSettersOnQuery : bool) (NODE_ENV : option string) (now : Z)
    (db : Mongo.collection) (b : Req.body) :
  let areg := Api.register runSettersOnQuery NODE_ENV now db b in
  let lreg := Legacy.register now db b in
  let alog := Api.login runSettersOnQuery NODE_ENV now db b in
  let llog := Legacy.login db b in
  ((Outcome.absent_or_empty (Req.fullName b)
    \/ Outcome.absent_or_empty (Req.email b)
    \/ Outcome.absent_or_empty (Req.password b)
    \/ Outcome.absent_or_empty (Req.confirmPassword b))
   \/ Req.password b <> Req.confirmPassword b
   \/ (exists p, Req.password b = JS.str p /\ JS.length p < 6) ->
   areg = lreg /\ fst areg = db)
  /\ (Outcome.absent_or_empty (Req.email b)
      \/ Outcome.absent_or_empty (Req.password b) ->
      alog = llog /\ fst alog = db)
  /\ (forall e p,
        Req.email b = JS.str e -> Req.password b = JS.str p ->
        e <> "" -> p <> "" -> Api.set_email e = e ->
        (forall u, Mongo.findOne_email db e = Some u -> Api.validate u = []) ->
        Http.status (snd alog) = Http.status (snd llog)
        /\ Http.message (snd alog) = Http.message (snd llog)
        /\ Outcome.identity_of (snd alog) = Outcome.identity_of (snd llog)
        /\ fst llog = db
        /\ (Http.status (snd alog) <> 200 -> alog = llog))
  /\ (forall f e,
        Outcome.valid_registration b = true ->
        Req.fullName b = JS.str f -> Req.email b = JS.str e ->
        JS.trim f = f -> Api.set_email e = e ->
        Forall2 Outcome.same_but_id (fst areg) (fst lreg)
        /\ Http.status (snd areg) = Http.status (snd lreg)
        /\ Http.message (snd areg) = Http.message (snd lreg)
        /\ Outcome.name_and_email_of (snd areg)
           = Outcome.name_and_email_of (snd lreg)).
Proof.
  assert (Hrefl : forall l, Forall2 Outcome.same_but_id l l).
  { induction l; constructor; auto. unfold Outcome.same_but_id. intuition. }
  cbv zeta. split; [|split; [|split]].
  - intro H.
    pose proof (api_register_rejects runSettersOnQuery NODE_ENV now db db b)
      as [A1 [A2 A3]].
    pose proof (legacy_register_rejects now db db b) as [L1 [L2 L3]].
    unfold Api.register, Legacy.register.
    destruct (JS.truthy (Req.fullName b) && JS.truthy (Req.email b)
              && JS.truthy (Req.password b)
              && JS.truthy (Req.confirmPassword b)) eqn:Ht.
    + destruct (JS.strict_eq (Req.password b) (Req.confirmPassword b)) eqn:Hs.
      * destruct H as [H|[H|[p [Hp Hlen]]]].
        -- apply truthy_all_false in H. congruence.
        -- apply strict_eq_neq in H. congruence.
        -- rewrite (A3 p), (L3 p) by auto. split; reflexivity.
      * rewrite A2, L2 by auto. split; reflexivity.
    + rewrite A1, L1 by auto. split; reflexivity.
  - intro H.
    assert (Hf : JS.truthy (Req.email b) && JS.truthy (Req.password b) = false).
    { destruct H as [H|H]; apply absent_or_empty_falsy in H; rewrite H;
        [reflexivity | apply andb_false_r]. }
    destruct (login_missing_field runSettersOnQuery NODE_ENV now db b Hf)
      as [-> ->].
    split; reflexivity.
  - intros e p He Hp Hne Hnp Hnorm Hvalid.
    rewrite (api_login_present _ NODE_ENV now db b e p) by assumption.
    rewrite (legacy_login_present db b e p) by assumption.
    rewrite (findOne_normalized _ db e Hnorm).
    destruct (Mongo.findOne_email db e) as [u|]; [|repeat split].
    rewrite (Hvalid u eq_refl).
    destruct (Mongo.password u =? p)%string; repeat split.
    cbn. intro H. now elim H.
  - intros f e Hv Hf He Htrim Hnorm.
    apply valid_registration_inv in Hv.
    destruct Hv as (f' & e' & p & -> & Hnf & Hne & Hp & Hvf & Hve).
    simpl in Hf, He. injection Hf as ->. injection He as ->.
    unfold Api.register, Legacy.register.
    rewrite (api_register_at_valid _ NODE_ENV now db db f e p) by assumption.
    rewrite (legacy_register_at_valid now db db f e p) by assumption.
    rewrite (findOne_normalized _ db e Hnorm), Hnorm.
    destruct (Mongo.findOne_email db e); [repeat split; apply Hrefl|].
    destruct (Outcome.taken db e); [repeat split; apply Hrefl|].
    cbv zeta. unfold Outcome.api_account, Outcome.legacy_account.
    rewrite Htrim, Hnorm. repeat split. apply Hrefl.
Qed.

Lemma applications_agree_witness :
  let u := Mongo.mk_user 1 "Ravi K" "ravi@example.com" "s3cret!" 10 None in
  let b := Req.mk_body (JS.str "Asha Rao") (JS.str "asha@example.com")
                       (JS.str "secret1") (JS.str "secret1") in
  let login := Req.mk_body JS.undefined (JS.str "ravi@example.com")
                           (JS.str "s3cret!") JS.undefined in
  (Forall2 Outcome.same_but_id (fst (Api.register true None 20 [u] b))
           (fst (Legacy.register 20 [u] b))
   /\ Http.status (snd (Api.register true None 20 [u] b))
      = Http.status (snd (Legacy.register 20 [u] b))
   /\ Http.message (snd (Api.register true None 20 [u] b))
      = Http.message (snd (Legacy.register 20 [u] b))
   /\ Outcome.name_and_email_of (snd (Api.register true None 20 [u] b))
      = Outcome.name_and_email_of (snd (Legacy.register 20 [u] b)))
  /\ Outcome.identity_of (snd (Api.login true None 20 [u] login))
     = Outcome.identity_of (snd (Legacy.login [u] login)).
Proof.
  intros u b login. split.
  - destruct (applications_agree true None 20 [u] b) as (_ & _ & _ & H).
    apply (H "Asha Rao" "asha@example.com"); reflexivity.
  - destruct (applications_agree true None 20 [u] login) as (_ & _ & H & _).
    apply (H "ravi@example.com" "s3cret!"); try reflexivity;
      try discriminate.
    intros v Hv. vm_compute in Hv. injection Hv as <-. reflexivity.
Defined.

(* ================================================================== *)
(** * Further properties of the code *)

(** ** The email validator *)

Section RegexFacts.

Import Regex.

Lemma append_nil_r (s : string) : (s ++ "")%string = s.
Proof. induction s as [|c r IH]; simpl; [reflexivity | now rewrite IH]. Qed.

Lemma append_assoc (s t u : string) :
  ((s ++ t) ++ u)%string = (s ++ (t ++ u))%string.
Proof. induction s as [|c r IH]; simpl; [reflexivity | now rewrite IH]. Qed.

Lemma append_empty (s t : string) :
  (s ++ t)%string = "" -> s = "" /\ t = "".
Proof. destruct s; simpl; [auto | discriminate]. Qed.

Lemma append_cons (a : ascii) (s s1 s2 : string) :
  String a s = (s1 ++ s2)%string ->
  (s1 = "" /\ s2 = String a s)
  \/ exists s1', s1 = String a s1' /\ s = (s1' ++ s2)%string.
Proof.
  destruct s1 as [|c r]; simpl; intro H; [now left|].
  injection H as -> ->. right. now exists r.
Qed.

Lemma seq_inv (r1 r2 : regex) (s : string) :
  matches (Seq r1 r2) s ->
  exists s1 s2, s = (s1 ++ s2)%string /\ matches r1 s1 /\ matches r2 s2.
Proof. intro H. inversion H; subst. eauto. Qed.

Lemma alt_inv (r1 r2 : regex) (s : string) :
  matches (Alt r1 r2) s -> matches r1 s \/ matches r2 s.
Proof. intro H. inversion H; subst; auto. Qed.

Lemma chr_inv (c : ascii) (s : string) :
  matches (Chr c) s -> s = String c "".
Proof. intro H. inversion H; subst. reflexivity. Qed.

Lemma nonspace_inv (s : string) :
  matches NonSpace s -> exists c, s = String c "" /\ JS.is_space c = false.
Proof. intro H. inversion H; subst. eauto. Qed.

Lemma void_inv (s : string) : ~ matches Void s.
Proof. intro H. inversion H. Qed.

Lemma eps_inv (s : string) : matches Eps s -> s = "".
Proof. intro H. inversion H. reflexivity. Qed.

Lemma nullable_matches (r : regex) : nullable r = true <-> matches r "".
Proof.
  induction r as [| |c| |r1 IH1 r2 IH2|r1 IH1 r2 IH2|r IH]; simpl.
  - split; [discriminate | intro H; now apply void_inv in H].
  - split; [constructor | reflexivity].
  - split; [discriminate | intro H; apply chr_inv in H; discriminate].
  - split; [discriminate|].
    intro H. apply nonspace_inv in H. destruct H as (c & H & _). discriminate.
  - rewrite andb_true_iff, IH1, IH2. split.
    + intros [H1 H2]. change "" with ("" ++ "")%string. now constructor.
    + intro H. apply seq_inv in H. destruct H as (s1 & s2 & E & H1 & H2).
      symmetry in E. apply append_empty in E. destruct E as [-> ->]. auto.
  - rewrite orb_true_iff, IH1, IH2. split.
    + intros [H|H]; [now apply m_alt_l | now apply m_alt_r].
    + apply alt_inv.
  - split; [constructor | reflexivity].
Qed.

(** A non-empty string of a star starts with a non-empty string of its
    body. *)
Lemma star_cons_inv (r : regex) (a : ascii) (s : string) :
  matches (Star r) (String a s) ->
  exists s1 s2, s = (s1 ++ s2)%string
                /\ matches r (String a s1) /\ matches (Star r) s2.
Proof.
  intro H. remember (Star r) as sr eqn:Er. remember (String a s) as w eqn:Ew.
  revert a s Ew.
  induction H as [| | | | | | |r' s1 s2 H1 _ H2 IH2]; try discriminate.
  injection Er as ->. intros a s Ew.
  destruct s1 as [|c t]; simpl in Ew.
  - now apply IH2.
  - injection Ew as Ea Es. subst a s. now exists t, s2.
Qed.

Lemma deriv_matches (r : regex) (a : ascii) (s : string) :
  matches (deriv a r) s <-> matches r (String a s).
Proof.
  revert s.
  induction r as [| |c| |r1 IH1 r2 IH2|r1 IH1 r2 IH2|r IH]; intro s; simpl.
  - split; intro H; now apply void_inv in H.
  - split; intro H; [now apply void_inv in H|].
    apply eps_inv in H. discriminate.
  - destruct (Ascii.eqb a c) eqn:E.
    + apply Ascii.eqb_eq in E. subst c. split; intro H.
      * apply eps_inv in H. subst s. constructor.
      * apply chr_inv in H. injection H as ->. constructor.
    + apply Ascii.eqb_neq in E. split; intro H; [now apply void_inv in H|].
      apply chr_inv in H. injection H as -> _. now elim E.
  - destruct (JS.is_space a) eqn:E.
    + split; intro H; [now apply void_inv in H|].
      apply nonspace_inv in H. destruct H as (c & Hc & Hs).
      injection Hc as -> _. congruence.
    + split; intro H.
      * apply eps_inv in H. subst s. now constructor.
      * apply nonspace_inv in H. destruct H as (c & Hc & Hs).
        injection Hc as _ ->. constructor.
  - assert (Hseq : matches (Seq (deriv a r1) r2) s
                   <-> exists s1 s2, s = (s1 ++ s2)%string
                                     /\ matches r1 (String a s1)
                                     /\ matches r2 s2).
    { split.
      - intro H. apply seq_inv in H. destruct H as (s1 & s2 & -> & H1 & H2).
        exists s1, s2. rewrite <- IH1. auto.
      - intros (s1 & s2 & -> & H1 & H2).
        constructor; [now apply IH1 | exact H2]. }
    assert (Hgoal : matches (Seq r1 r2) (String a s)
                    <-> (exists s1 s2, s = (s1 ++ s2)%string
                                       /\ matches r1 (String a s1)
                                       /\ matches r2 s2)
                        \/ (matches r1 "" /\ matches r2 (String a s))).
    { split.
      - intro H. apply seq_inv in H. destruct H as (s1 & s2 & E & H1 & H2).
        apply append_cons in E.
        destruct E as [[-> ->]|(t & -> & ->)]; [now right|].
        left. now exists t, s2.
      - intros [(s1 & s2 & -> & H1 & H2)|[H1 H2]].
        + change (String a (s1 ++ s2)) with (String a s1 ++ s2)%string.
          now constructor.
        + change (String a s) with ("" ++ String a s)%string. now constructor. }
    rewrite Hgoal. destruct (nullable r1) eqn:En.
    + apply nullable_matches in En. split.
      * intro H. apply alt_inv in H. destruct H as [H|H];
          [left; now apply Hseq|].
        right. split; [exact En | now apply IH2].
      * intros [H|[_ H]]; [apply m_alt_l; now apply Hseq|].
        apply m_alt_r. now apply IH2.
    + rewrite Hseq. split; [now left|].
      intros [H|[H _]]; [exact H|].
      apply nullable_matches in H. congruence.
  - split; intro H; apply alt_inv in H; destruct H as [H|H];
      solve [apply m_alt_l; now apply IH1 | apply m_alt_r; now apply IH2].
  - split.
    + intro H. apply seq_inv in H. destruct H as (s1 & s2 & -> & H1 & H2).
      change (String a (s1 ++ s2)) with (String a s1 ++ s2)%string.
      constructor; [now apply IH | exact H2].
    + intro H. apply star_cons_inv in H.
      destruct H as (s1 & s2 & -> & H1 & H2).
      constructor; [now apply IH | exact H2].
Qed.

(** The derivative matcher decides the denotation. *)
Lemma test_matches (r : regex) (s : string) : test r s = true <-> matches r s.
Proof.
  revert r. induction s as [|a s IH]; intro r; simpl.
  - apply nullable_matches.
  - rewrite IH. apply deriv_matches.
Qed.

Lemma star_nonspace (s : string) :
  matches (Star NonSpace) s <-> JS.no_space s = true.
Proof.
  split.
  - intro H. remember (Star NonSpace) as r eqn:Er.
    induction H as [| | | | | | |r' s1 s2 H1 _ H2 IH2]; try discriminate;
      [reflexivity|].
    injection Er as ->. apply nonspace_inv in H1.
    destruct H1 as (c & -> & Hc). simpl. rewrite Hc. simpl. now apply IH2.
  - induction s as [|c t IH]; simpl; [constructor|].
    intro H. apply andb_true_iff in H. destruct H as [Hc Ht].
    apply negb_true_iff in Hc.
    change (String c t) with (String c "" ++ t)%string.
    constructor; [now constructor | now apply IH].
Qed.

Lemma plus_nonspace (s : string) :
  matches (Plus NonSpace) s <-> s <> "" /\ JS.no_space s = true.
Proof.
  unfold Plus. split.
  - intro H. apply seq_inv in H. destruct H as (s1 & s2 & -> & H1 & H2).
    apply nonspace_inv in H1. destruct H1 as (c & -> & Hc).
    apply star_nonspace in H2. simpl. rewrite Hc, H2.
    split; [discriminate | reflexivity].
  - intros [Hne Hs]. destruct s as [|c t]; [now elim Hne|].
    simpl in Hs. apply andb_true_iff in Hs. destruct Hs as [Hc Ht].
    apply negb_true_iff in Hc.
    change (String c t) with (String c "" ++ t)%string.
    constructor; [now constructor | now apply star_nonspace].
Qed.

End RegexFacts.

(** X1. The [match] validator of the email path accepts exactly the strings
    of the shape [local@domain.tld]: three non-empty parts without white
    space, joined by an [@] and a dot. *)
Theorem email_regex_shape (s : string) :
  Regex.test Api.email_regex s = true <-> Outcome.email_shape s.
Proof.
  rewrite test_matches. unfold Api.email_regex, Outcome.email_shape. split.
  - intro H.
    apply seq_inv in H. destruct H as (a & s1 & -> & Ha & H).
    apply seq_inv in H. destruct H as (at_ & s2 & -> & Hat & H).
    apply seq_inv in H. destruct H as (b & s3 & -> & Hb & H).
    apply seq_inv in H. destruct H as (dot & c & -> & Hdot & Hc).
    apply chr_inv in Hat, Hdot. subst at_ dot.
    apply plus_nonspace in Ha, Hb, Hc.
    exists a, b, c. intuition.
  - intros (a & b & c & -> & Ha & Hb & Hc & Sa & Sb & Sc).
    constructor; [now apply plus_nonspace|].
    constructor; [constructor|].
    constructor; [now apply plus_nonspace|].
    constructor; [constructor | now apply plus_nonspace].
Qed.

Lemma email_regex_shape_witness :
  Outcome.email_shape "asha@example.com"
  /\ Regex.test Api.email_regex "a.b@c.d.e" = true.
Proof.
  split.
  - apply (email_regex_shape "asha@example.com"). reflexivity.
  - apply (email_regex_shape "a.b@c.d.e").
    exists "a.b", "c", "d.e". repeat split; discriminate.
Defined.

(** ** Account service: every way a handler can end *)

Section HandlerCases.

Import JS Http.

Variable runSettersOnQuery : bool.
Variable NODE_ENV : option string.

(** A registration of [Api] ends in a 400 that stores nothing and shows no
    user, or in the 201 of a new account, appended to the collection the
    insertion found. *)
Lemma api_register_at_cases (now : Z) (db0 db : Mongo.collection)
    (b : Req.body) :
  let r := Api.register_at runSettersOnQuery NODE_ENV now db0 db b in
  (fst r = db /\ status (snd r) = 400 /\ user_view (snd r) = None)
  \/ exists f e p,
       b = Req.mk_body (str f) (str e) (str p) (str p)
       /\ f <> "" /\ e <> "" /\ 6 <= JS.length p
       /\ Api.findOne runSettersOnQuery db0 (toLowerCase e) = None
       /\ Api.validate_fullName (trim f) = []
       /\ Api.validate_email (Api.set_email e) = []
       /\ Outcome.taken db (Api.set_email e) = false
       /\ r = ((db ++ [Outcome.api_account now db f e p])%list,
               Outcome.api_created (Outcome.api_account now db f e p)).
Proof.
  cbv zeta.
  destruct (truthy (Req.fullName b) && truthy (Req.email b)
            && truthy (Req.password b) && truthy (Req.confirmPassword b))
    eqn:Ht.
  2:{ left.
      rewrite (proj1 (api_register_rejects runSettersOnQuery NODE_ENV now db0
                        db b) Ht).
      repeat split. }
  repeat (apply andb_true_iff in Ht; destruct Ht as [Ht ?]).
  destruct b as [[| |f] [| |e] [| |p] [| |c]];
    cbn [Req.fullName Req.email Req.password Req.confirmPassword truthy] in *;
    try discriminate.
  repeat match goal with
         | Hn : negb (_ =? _)%string = true |- _ => apply negb_true_iff in Hn
         end.
  unfold Api.register_at, Api.register_try.
  cbn [Req.fullName Req.email Req.password Req.confirmPassword truthy strict_eq].
  assert (Ef : (f =? "")%string = false) by assumption.
  assert (Ee : (e =? "")%string = false) by assumption.
  assert (Ep : (p =? "")%string = false) by assumption.
  assert (Ec : (c =? "")%string = false) by assumption.
  rewrite Ef, Ee, Ep, Ec.
  cbn [negb orb].
  destruct (p =? c)%string eqn:Epc; [|left; repeat split; reflexivity].
  apply String.eqb_eq in Epc. subst c.
  cbn [negb get_length bind].
  destruct (JS.length p <? 6) eqn:El; [left; repeat split; reflexivity|].
  cbn [call_toLowerCase bind].
  destruct (Api.findOne runSettersOnQuery db0 (toLowerCase e)) eqn:Eq;
    [left; repeat split; reflexivity|].
  unfold Api.register_create. cbn [call_trim call_toLowerCase bind].
  unfold Api.save, Api.new_User, Api.validate.
  cbn [Mongo.fullName Mongo.email Mongo.password Req.string_of].
  assert (Hn : Api.set_fullName (trim f) = trim f)
    by (unfold Api.set_fullName; apply trim_idem).
  assert (Hm : Api.set_email (trim (toLowerCase e)) = Api.set_email e)
    by apply set_email_idem.
  rewrite Hn, Hm.
  apply String.eqb_neq in Ef, Ee. apply Z.ltb_ge in El.
  rewrite (validate_password_ok p El), app_nil_r.
  destruct (Api.validate_fullName (trim f)) as [|x xs] eqn:Evf.
  - destruct (Api.validate_email (Api.set_email e)) as [|y ys] eqn:Eve.
    + cbn [app]. unfold Mongo.insertOne. cbn [Mongo.email].
      fold (Outcome.taken db (Api.set_email e)).
      destruct (Outcome.taken db (Api.set_email e)) eqn:Et;
        [left; repeat split; reflexivity|].
      right. exists f, e, p. repeat split; assumption.
    + left. repeat split; reflexivity.
  - left. repeat split; reflexivity.
Qed.

(** The same for [Legacy], which has no validator to fail. *)
Lemma legacy_register_at_cases (now : Z) (db0 db : Mongo.collection)
    (b : Req.body) :
  let r := Legacy.register_at now db0 db b in
  (fst r = db /\ status (snd r) = 400 /\ user_view (snd r) = None)
  \/ exists f e p,
       b = Req.mk_body (str f) (str e) (str p) (str p)
       /\ f <> "" /\ e <> "" /\ 6 <= JS.length p
       /\ Mongo.findOne_email db0 e = None
       /\ Outcome.taken db e = false
       /\ r = ((db ++ [Outcome.legacy_account now db f e p])%list,
               Outcome.legacy_created (Outcome.legacy_account now db f e p)).
Proof.
  cbv zeta.
  destruct (truthy (Req.fullName b) && truthy (Req.email b)
            && truthy (Req.password b) && truthy (Req.confirmPassword b))
    eqn:Ht.
  2:{ left.
      rewrite (proj1 (legacy_register_rejects now db0 db b) Ht).
      repeat split. }
  repeat (apply andb_true_iff in Ht; destruct Ht as [Ht ?]).
  destruct b as [[| |f] [| |e] [| |p] [| |c]];
    cbn [Req.fullName Req.email Req.password Req.confirmPassword truthy] in *;
    try discriminate.
  repeat match goal with
         | Hn : negb (_ =? _)%string = true |- _ => apply negb_true_iff in Hn
         end.
  unfold Legacy.register_at, Legacy.register_try.
  cbn [Req.fullName Req.email Req.password Req.confirmPassword truthy strict_eq].
  assert (Ef : (f =? "")%string = false) by assumption.
  assert (Ee : (e =? "")%string = false) by assumption.
  assert (Ep : (p =? "")%string = false) by assumption.
  assert (Ec : (c =? "")%string = false) by assumption.
  rewrite Ef, Ee, Ep, Ec.
  cbn [negb orb].
  destruct (p =? c)%string eqn:Epc; [|left; repeat split; reflexivity].
  apply String.eqb_eq in Epc. subst c.
  cbn [negb get_length bind].
  destruct (JS.length p <? 6) eqn:El; [left; repeat split; reflexivity|].
  cbn [Legacy.findOne].
  destruct (Mongo.findOne_email db0 e) eqn:Eq;
    [left; repeat split; reflexivity|].
  unfold Legacy.register_create, Legacy.save, Legacy.validate, Legacy.required.
  cbn [truthy]. rewrite Ef, Ee, Ep. cbn [negb app].
  unfold Legacy.new_User, Mongo.insertOne. cbn [Mongo.email Req.string_of].
  fold (Outcome.taken db e).
  destruct (Outcome.taken db e) eqn:Et; [left; repeat split; reflexivity|].
  apply String.eqb_neq in Ef, Ee. apply Z.ltb_ge in El.
  right. exists f, e, p. repeat split; assumption.
Qed.

(** A login of [Api] ends in a 400 or a 401 that writes nothing and shows
    no user, in the 500 of a save that the validators of the schema stop,
    or in the 200 of the account its query found. *)
Lemma api_login_cases (now : Z) (db : Mongo.collection) (b : Req.body) :
  let r := Api.login runSettersOnQuery NODE_ENV now db b in
  (fst r = db /\ (status (snd r) = 400 \/ status (snd r) = 401)
   /\ user_view (snd r) = None)
  \/ (exists e u,
        Req.email b = str e /\ e <> ""
        /\ Req.password b = str (Mongo.password u) /\ Mongo.password u <> ""
        /\ Api.findOne runSettersOnQuery db (toLowerCase e) = Some u
        /\ Api.validate u <> []
        /\ r = (db, Api.server_error NODE_ENV "Server error during login"
                      (Mongo.ValidationError "User" (Api.validate u))))
  \/ exists e u,
       Req.email b = str e /\ e <> ""
       /\ Req.password b = str (Mongo.password u) /\ Mongo.password u <> ""
       /\ Api.findOne runSettersOnQuery db (toLowerCase e) = Some u
       /\ Api.validate u = []
       /\ fst r = Mongo.set_lastLogin db (Mongo._id u) now
       /\ status (snd r) = 200
       /\ user_view (snd r)
          = Some (JObj [("id", JOid (Mongo._id u));
                        ("fullName", JStr (Mongo.fullName u));
                        ("email", JStr (Mongo.email u));
                        ("lastLogin", JDate now)]).
Proof.
  cbv zeta. unfold Api.login, Api.login_try.
  destruct (Req.email b) as [| |e] eqn:He;
    try (left; repeat split; auto; fail).
  destruct (Req.password b) as [| |p] eqn:Hp;
    try (left; cbn [truthy negb orb]; rewrite ?orb_true_r; repeat split;
         auto; fail).
  cbn [truthy]. destruct (e =? "")%string eqn:Ee; [left; repeat split; auto|].
  destruct (p =? "")%string eqn:Ep; [left; repeat split; auto|].
  cbn [negb orb call_toLowerCase bind].
  destruct (Api.findOne runSettersOnQuery db (toLowerCase e)) as [u|] eqn:Eq;
    [|left; repeat split; auto].
  cbn [strict_eq].
  destruct (Mongo.password u =? p)%string eqn:Epw;
    [|left; repeat split; auto].
  apply String.eqb_eq in Epw. subst p. apply String.eqb_neq in Ee, Ep.
  cbn [negb]. unfold Api.save_lastLogin.
  destruct (Api.validate u) as [|x xs] eqn:Ev.
  - right. right. exists e, u. repeat split; assumption.
  - right. left. exists e, u. rewrite Ev.
    repeat split; solve [assumption | discriminate].
Qed.

(** The same for [Legacy], which never writes. *)
Lemma legacy_login_cases (db : Mongo.collection) (b : Req.body) :
  let r := Legacy.login db b in
  fst r = db
  /\ (((status (snd r) = 400 \/ status (snd r) = 401)
       /\ user_view (snd r) = None)
      \/ exists e u,
           Req.email b = str e /\ e <> ""
           /\ Req.password b = str (Mongo.password u)
           /\ Mongo.findOne_email db e = Some u
           /\ status (snd r) = 200
           /\ user_view (snd r)
              = Some (JObj [("id", JOid (Mongo._id u));
                            ("fullName", JStr (Mongo.fullName u));
                            ("email", JStr (Mongo.email u))])).
Proof.
  cbv zeta. unfold Legacy.login, Legacy.login_try.
  destruct (Req.email b) as [| |e] eqn:He;
    try (split; [reflexivity|left; repeat split; auto]; fail).
  destruct (Req.password b) as [| |p] eqn:Hp;
    try (cbn [truthy negb orb]; rewrite ?orb_true_r;
         split; [reflexivity|left; repeat split; auto]; fail).
  cbn [truthy]. destruct (e =? "")%string eqn:Ee;
    [split; [reflexivity|left; repeat split; auto]|].
  destruct (p =? "")%string eqn:Ep;
    [split; [reflexivity|left; repeat split; auto]|].
  cbn [negb orb Legacy.findOne].
  destruct (Mongo.findOne_email db e) as [u|] eqn:Eq;
    [|split; [reflexivity|left; repeat split; auto]].
  cbn [strict_eq].
  destruct (Mongo.password u =? p)%string eqn:Epw;
    [|split; [reflexivity|left; repeat split; auto]].
  apply String.eqb_eq in Epw. subst p. apply String.eqb_neq in Ee.
  split; [reflexivity|]. right. exists e, u. repeat split; assumption.
Qed.

End HandlerCases.

(** ** Account service: what every request gets *)

(** X2. For fields that are strings, null or absent and a store that
    answers, a registration is answered 201 or 400 in both applications and
    a login of [server.js] 200, 400 or 401. A login of the application of
    [routes/videoRoutes.js] is answered 200, 400 or 401 on a collection
    whose accounts pass the validators of its schema; when the account it
    finds, under the right password, fails a validator, the save throws and
    the login is answered 500 "Server error during login" and writes
    nothing. *)
Theorem login_answers_500_only_on_invalid_account
    (runSettersOnQuery : bool) (NODE_ENV : option string) (now : Z)
    (db0 db : Mongo.collection) (b : Req.body) :
  let reg := fun r => Http.status r = 201 \/ Http.status r = 400 in
  let log := fun r => Http.status r = 200 \/ Http.status r = 400
                      \/ Http.status r = 401 in
  reg (snd (Api.register_at runSettersOnQuery NODE_ENV now db0 db b))
  /\ reg (snd (Legacy.register_at now db0 db b))
  /\ log (snd (Legacy.login db b))
  /\ (Forall (fun u => Api.validate u = []) db ->
      log (snd (Api.login runSettersOnQuery NODE_ENV now db b)))
  /\ (forall e p u,
        Req.email b = JS.str e -> Req.password b = JS.str p ->
        e <> "" -> p <> "" ->
        Api.findOne runSettersOnQuery db (JS.toLowerCase e) = Some u ->
        Mongo.password u = p ->
        Api.validate u <> [] ->
        Api.login runSettersOnQuery NODE_ENV now db b
        = (db, Api.server_error NODE_ENV "Server error during login"
                 (Mongo.ValidationError "User" (Api.validate u)))
        /\ Http.status (snd (Api.login runSettersOnQuery NODE_ENV now db b))
           = 500).
Proof.
  cbv zeta. split; [|split; [|split; [|split]]].
  - destruct (api_register_at_cases runSettersOnQuery NODE_ENV now db0 db b)
      as [(_ & H & _)|(f & e & p & _ & _ & _ & _ & _ & _ & _ & _ & ->)];
      [now right | now left].
  - destruct (legacy_register_at_cases now db0 db b)
      as [(_ & H & _)|(f & e & p & _ & _ & _ & _ & _ & _ & ->)];
      [now right | now left].
  - destruct (legacy_login_cases db b)
      as [_ [(H & _)|(e & u & _ & _ & _ & _ & H & _)]]; intuition.
  - intro Hvalid.
    destruct (api_login_cases runSettersOnQuery NODE_ENV now db b)
      as [(_ & H & _)|[(e & u & _ & _ & _ & _ & Hfind & Hbad & _)
                      |(e & u & _ & _ & _ & _ & _ & _ & _ & H & _)]];
      [intuition| |intuition].
    exfalso. apply Hbad. unfold Api.findOne, Mongo.findOne_email in Hfind.
    apply find_some in Hfind. destruct Hfind as [Hin _].
    rewrite Forall_forall in Hvalid. now apply Hvalid.
  - intros e p u He Hp Hne Hnp Hfind Hpw Hbad.
    rewrite (api_login_present _ NODE_ENV now db b e p) by assumption.
    rewrite Hfind, Hpw, String.eqb_refl.
    destruct (Api.validate u) as [|x xs]; [now elim Hbad|].
    split; reflexivity.
Qed.

Lemma login_answers_500_only_on_invalid_account_witness :
  let u := Mongo.mk_user 1 "R" "r@example.com" "s3cret!" 10 None in
  let b := Req.mk_body JS.undefined (JS.str "r@example.com")
                       (JS.str "s3cret!") JS.undefined in
  Http.status (snd (Api.login true None 20 [u] b)) = 500
  /\ fst (Api.login true None 20 [u] b) = [u]
  /\ Http.status (snd (Legacy.login [u] b)) = 200.
Proof.
  intros u b.
  destruct (login_answers_500_only_on_invalid_account true None 20 [u] [u] b)
    as (_ & _ & _ & _ & H).
  destruct (H "r@example.com" "s3cret!" u) as [H1 H2];
    try reflexivity; try discriminate.
  split; [exact H2|]. rewrite H1. split; reflexivity.
Defined.

(** X3. No answer of a registration or of a login, in either application,
    carries the password in its user view. *)
Theorem handlers_hide_password
    (runSettersOnQuery : bool) (NODE_ENV : option string) (now : Z)
    (db0 db : Mongo.collection) (b : Req.body) :
  Outcome.hides_password
    (snd (Api.register_at runSettersOnQuery NODE_ENV now db0 db b))
  /\ Outcome.hides_password (snd (Legacy.register_at now db0 db b))
  /\ Outcome.hides_password
       (snd (Api.login runSettersOnQuery NODE_ENV now db b))
  /\ Outcome.hides_password (snd (Legacy.login db b)).
Proof.
  unfold Outcome.hides_password. repeat split; intros view Hv.
  - destruct (api_register_at_cases runSettersOnQuery NODE_ENV now db0 db b)
      as [(_ & _ & H)|(f & e & p & _ & _ & _ & _ & _ & _ & _ & _ & H)].
    + congruence.
    + rewrite H in Hv. cbn in Hv. injection Hv as <-. reflexivity.
  - destruct (legacy_register_at_cases now db0 db b)
      as [(_ & _ & H)|(f & e & p & _ & _ & _ & _ & _ & _ & H)].
    + congruence.
    + rewrite H in Hv. cbn in Hv. injection Hv as <-. reflexivity.
  - destruct (api_login_cases runSettersOnQuery NODE_ENV now db b)
      as [(_ & _ & H)|[(e & u & _ & _ & _ & _ & _ & _ & H)
                      |(e & u & _ & _ & _ & _ & _ & _ & _ & _ & H)]].
    + congruence.
    + rewrite H in Hv. unfold Api.server_error in Hv.
      destruct NODE_ENV as [env|]; [destruct (env =? "development")%string|];
        discriminate Hv.
    + rewrite H in Hv. injection Hv as <-. reflexivity.
  - destruct (legacy_login_cases db b)
      as [_ [(_ & H)|(e & u & _ & _ & _ & _ & _ & H)]].
    + congruence.
    + rewrite H in Hv. injection Hv as <-. reflexivity.
Qed.

Lemma handlers_hide_password_witness :
  let u := Mongo.mk_user 1 "Ravi K" "ravi@example.com" "s3cret!" 10 None in
  let b := Req.mk_body JS.undefined (JS.str "ravi@example.com")
                       (JS.str "s3cret!") JS.undefined in
  Http.field "password"
    (Http.JObj [("id", Http.JOid 1); ("fullName", Http.JStr "Ravi K");
                ("email", Http.JStr "ravi@example.com");
                ("lastLogin", Http.JDate 25)]) = None.
Proof.
  intros u b.
  destruct (handlers_hide_password true None 25 [u] [u] b) as (_ & _ & H & _).
  apply H. reflexivity.
Defined.

(** X4. For fields that are strings, null or absent, a registration writes
    only when it succeeds, and then writes one account: in both
    applications the answer is 400 and the collection is the one the
    insertion found, or the answer is 201 and the collection has one more
    account, at its end, with an identifier no stored account has,
    [createdAt] the clock reading, no [lastLogin], and the password of the
    request as it was sent. *)
Theorem register_writes_one_account_or_nothing
    (runSettersOnQuery : bool) (NODE_ENV : option string) (now : Z)
    (db0 db : Mongo.collection) (b : Req.body) :
  let outcome := fun r : Mongo.collection * Http.response =>
    (Http.status (snd r) = 400 /\ fst r = db)
    \/ (Http.status (snd r) = 201
        /\ exists u,
             fst r = (db ++ [u])%list
             /\ ~ In (Mongo._id u) (map Mongo._id db)
             /\ Mongo.createdAt u = now
             /\ Mongo.lastLogin u = None
             /\ Req.password b = JS.str (Mongo.password u)) in
  outcome (Api.register_at runSettersOnQuery NODE_ENV now db0 db b)
  /\ outcome (Legacy.register_at now db0 db b).
Proof.
  assert (Hfresh : ~ In (Mongo.new_ObjectId db) (map Mongo._id db)).
  { intro Hin. apply in_map_iff in Hin. destruct Hin as (u & Hu & Hin).
    apply new_ObjectId_fresh in Hin. lia. }
  cbv zeta. split.
  - destruct (api_register_at_cases runSettersOnQuery NODE_ENV now db0 db b)
      as [(H1 & H2 & _)|(f & e & p & -> & _ & _ & _ & _ & _ & _ & _ & ->)];
      [now left|].
    right. split; [reflexivity|]. eexists. repeat split. exact Hfresh.
  - destruct (legacy_register_at_cases now db0 db b)
      as [(H1 & H2 & _)|(f & e & p & -> & _ & _ & _ & _ & _ & ->)];
      [now left|].
    right. split; [reflexivity|]. eexists. repeat split. exact Hfresh.
Qed.

(** X5. A login writes only when it succeeds: in the application of
    [routes/videoRoutes.js] an answer other than 200 leaves the collection
    as it was, and the login of [server.js] leaves it as it was whatever
    the answer. *)
Theorem login_writes_only_on_success
    (runSettersOnQuery : bool) (NODE_ENV : option string) (now : Z)
    (db : Mongo.collection) (b : Req.body) :
  (Http.status (snd (Api.login runSettersOnQuery NODE_ENV now db b)) <> 200 ->
   fst (Api.login runSettersOnQuery NODE_ENV now db b) = db)
  /\ fst (Legacy.login db b) = db.
Proof.
  split.
  - destruct (api_login_cases runSettersOnQuery NODE_ENV now db b)
      as [(H & _)|[(e & u & _ & _ & _ & _ & _ & _ & ->)
                  |(e & u & _ & _ & _ & _ & _ & _ & _ & H & _)]];
      [auto | auto | intro Hn; now elim Hn].
  - apply (legacy_login_cases db b).
Qed.

Lemma login_writes_only_on_success_witness :
  let u := Mongo.mk_user 1 "Ravi K" "ravi@example.com" "s3cret!" 10 None in
  let b := Req.mk_body JS.undefined (JS.str "ravi@example.com")
                       (JS.str "guess") JS.undefined in
  fst (Api.login false None 25 [u] b) = [u].
Proof.
  intros u b.
  apply (proj1 (login_writes_only_on_success false None 25 [u] b)).
  vm_compute. discriminate.
Defined.

(** ** The unique key under interleaving *)

Section UniqueEmails.

Import JS Http.

Lemma taken_false_not_in (db : Mongo.collection) (key : string) :
  Outcome.taken db key = false -> ~ In key (map Mongo.email db).
Proof.
  unfold Outcome.taken. intros H Hin. apply in_map_iff in Hin.
  destruct Hin as (u & Hu & Hin).
  assert (existsb (fun v => (Mongo.email v =? key)%string) db = true).
  { apply existsb_exists. exists u. split; [exact Hin|].
    now apply String.eqb_eq. }
  congruence.
Qed.

Lemma NoDup_snoc (l : list string) (x : string) :
  NoDup l -> ~ In x l -> NoDup (l ++ [x]).
Proof.
  intros Hnd Hx. apply NoDup_app; [exact Hnd| |].
  - constructor; [intros []|constructor].
  - intros y Hy [<-|[]]. now apply Hx.
Qed.

Lemma set_lastLogin_emails (db : Mongo.collection) (id : N) (t : Z) :
  map Mongo.email (Mongo.set_lastLogin db id t) = map Mongo.email db.
Proof.
  induction db as [|u r IH]; simpl; [reflexivity|].
  destruct (Mongo._id u =? id)%N; simpl; [reflexivity | now rewrite IH].
Qed.

Lemma emails_unique_step
    (runSettersOnQuery : bool) (NODE_ENV : option string) (now : Z)
    (db0 db : Mongo.collection) (b : Req.body) :
  NoDup (map Mongo.email db) ->
  NoDup (map Mongo.email
           (fst (Api.register_at runSettersOnQuery NODE_ENV now db0 db b)))
  /\ NoDup (map Mongo.email (fst (Legacy.register_at now db0 db b)))
  /\ NoDup (map Mongo.email
              (fst (Api.login runSettersOnQuery NODE_ENV now db b))).
Proof.
  intro Hnd. repeat split.
  - destruct (api_register_at_cases runSettersOnQuery NODE_ENV now db0 db b)
      as [(-> & _)|(f & e & p & _ & _ & _ & _ & _ & _ & _ & Ht & ->)];
      [exact Hnd|].
    cbn [fst]. rewrite map_app. cbn [map Outcome.api_account Mongo.email].
    apply NoDup_snoc; [exact Hnd | now apply taken_false_not_in].
  - destruct (legacy_register_at_cases now db0 db b)
      as [(-> & _)|(f & e & p & _ & _ & _ & _ & _ & Ht & ->)];
      [exact Hnd|].
    cbn [fst]. rewrite map_app. cbn [map Outcome.legacy_account Mongo.email].
    apply NoDup_snoc; [exact Hnd | now apply taken_false_not_in].
  - destruct (api_login_cases runSettersOnQuery NODE_ENV now db b)
      as [(-> & _)|[(e & u & _ & _ & _ & _ & _ & _ & ->)
                   |(e & u & _ & _ & _ & _ & _ & _ & -> & _)]];
      [exact Hnd | exact Hnd | now rewrite set_lastLogin_emails].
Qed.

End UniqueEmails.

(** X6. The emails of a collection stay pairwise different: a registration
    of either application leaves them so whatever the collection its
    existence query saw, and so does a login. *)
Theorem handlers_keep_emails_unique
    (runSettersOnQuery : bool) (NODE_ENV : option string) (now : Z)
    (db0 db : Mongo.collection) (b : Req.body) :
  NoDup (map Mongo.email db) ->
  NoDup (map Mongo.email
           (fst (Api.register_at runSettersOnQuery NODE_ENV now db0 db b)))
  /\ NoDup (map Mongo.email (fst (Legacy.register_at now db0 db b)))
  /\ NoDup (map Mongo.email
              (fst (Api.login runSettersOnQuery NODE_ENV now db b))).
Proof. apply emails_unique_step. Qed.

Lemma handlers_keep_emails_unique_witness :
  let u := Mongo.mk_user 1 "Ravi K" "ravi@example.com" "s3cret!" 10 None in
  let b := Req.mk_body (JS.str "Ravi") (JS.str "RAVI@example.com ")
                       (JS.str "another1") (JS.str "another1") in
  NoDup (map Mongo.email (fst (Api.register_at false None 20 [] [u] b))).
Proof.
  intros u b.
  apply (handlers_keep_emails_unique false None 20 [] [u] b).
  constructor; [intros [] | constructor].
Defined.

(** X7. Two valid registrations of the application of
    [routes/videoRoutes.js] whose emails are equal after lowercasing and
    whose existence queries both ran before either insertion, on a
    collection without that email: the first insertion is answered 201, the
    second 400 "Email already registered", and one account is created. *)
Theorem concurrent_registrations_create_one_account
    (runSettersOnQuery : bool) (NODE_ENV : option string) (now1 now2 : Z)
    (db : Mongo.collection) (b1 b2 : Req.body) (e1 e2 : string) :
  Outcome.valid_registration b1 = true ->
  Outcome.valid_registration b2 = true ->
  Req.email b1 = JS.str e1 -> Req.email b2 = JS.str e2 ->
  JS.toLowerCase e1 = JS.toLowerCase e2 ->
  (forall u, In u db -> Api.set_email (Mongo.email u) <> Api.set_email e1) ->
  let r1 := Api.register_at runSettersOnQuery NODE_ENV now1 db db b1 in
  let r2 := Api.register_at runSettersOnQuery NODE_ENV now2 db (fst r1) b2 in
  Http.status (snd r1) = 201
  /\ r2 = (fst r1, Api.failure 400 "Email already registered")
  /\ List.length (fst r2) = S (List.length db).
Proof.
  intros Hv1 Hv2 He1 He2 Hlow Hfresh.
  apply valid_registration_inv in Hv1, Hv2.
  destruct Hv1 as (f1 & e1' & p1 & -> & Hf1 & Hne1 & Hp1 & Hvf1 & Hve1).
  destruct Hv2 as (f2 & e2' & p2 & -> & Hf2 & Hne2 & Hp2 & Hvf2 & Hve2).
  simpl in He1, He2. injection He1 as ->. injection He2 as ->.
  assert (Hkey : Api.set_email e1 = Api.set_email e2)
    by (unfold Api.set_email; now rewrite Hlow).
  assert (Hnone : Api.findOne runSettersOnQuery db (JS.toLowerCase e1) = None).
  { unfold Api.findOne. apply find_none_not_taken, not_taken_fresh.
    intros u Hin Heq. apply (Hfresh u Hin). rewrite Heq.
    destruct runSettersOnQuery.
    - now rewrite set_email_idem, set_email_lower.
    - apply set_email_lower. }
  assert (Hfree : Outcome.taken db (Api.set_email e1) = false).
  { apply not_taken_fresh. intros u Hin Heq. apply (Hfresh u Hin).
    rewrite Heq. apply set_email_idem. }
  cbv zeta.
  rewrite (api_register_at_valid _ NODE_ENV now1 db db f1 e1 p1) by assumption.
  rewrite Hnone, Hfree. cbv zeta. cbn [fst snd].
  rewrite (api_register_at_valid _ NODE_ENV now2 db _ f2 e2 p2) by assumption.
  rewrite <- Hlow, Hnone, taken_app.
  cbn [Outcome.api_account Mongo.email]. rewrite Hkey, String.eqb_refl, orb_true_r.
  cbn [fst]. rewrite length_app. cbn [List.length].
  repeat split. lia.
Qed.

Lemma concurrent_registrations_create_one_account_witness :
  let b1 := Req.mk_body (JS.str "Asha Rao") (JS.str "A@B.com")
                        (JS.str "secret1") (JS.str "secret1") in
  let b2 := Req.mk_body (JS.str "Asha R.") (JS.str "a@b.com")
                        (JS.str "secret2") (JS.str "secret2") in
  let r1 := Api.register_at true None 10 [] [] b1 in
  let r2 := Api.register_at true None 20 [] (fst r1) b2 in
  Http.status (snd r1) = 201
  /\ r2 = (fst r1, Api.failure 400 "Email already registered")
  /\ List.length (fst r2) = 1%nat.
Proof.
  intros b1 b2.
  apply (concurrent_registrations_create_one_account true None 10 20 [] b1 b2
           "A@B.com" "a@b.com"); try reflexivity.
  intros u [].
Defined.

(** ** Schema validation *)

(** X8. A registration of the application of [routes/videoRoutes.js] that
    passes the field checks and the existence query, but whose trimmed name
    or normalized email fails a validator of the schema, is answered 400
    with the messages of the validators joined by a comma, a
    [ValidationError] and not the 500 of the other errors, and stores
    nothing. *)
Theorem register_schema_failure_is_400
    (runSettersOnQuery : bool) (NODE_ENV : option string) (now : Z)
    (db0 db : Mongo.collection) (f e p : string) :
  f <> "" -> e <> "" -> 6 <= JS.length p ->
  Api.findOne runSettersOnQuery db0 (JS.toLowerCase e) = None ->
  let errors := (Api.validate_fullName (JS.trim f)
                   ++ Api.validate_email (Api.set_email e))%list in
  errors <> [] ->
  let r := Api.register_at runSettersOnQuery NODE_ENV now db0 db
             (Req.mk_body (JS.str f) (JS.str e) (JS.str p) (JS.str p)) in
  r = (db, Api.failure 400 (JS.join ", " (map snd errors)))
  /\ Outcome.kind_of (snd r) = Outcome.ValidationError.
Proof.
  intros Hf He Hp Hnone errors Herr.
  assert (Hp' : p <> "").
  { intros ->. unfold JS.length in Hp. simpl in Hp. lia. }
  assert (Hr : Api.register_at runSettersOnQuery NODE_ENV now db0 db
                 (Req.mk_body (JS.str f) (JS.str e) (JS.str p) (JS.str p))
               = (db, Api.failure 400 (JS.join ", " (map snd errors)))).
  { unfold Api.register_at, Api.register_try.
    cbn [Req.fullName Req.email Req.password Req.confirmPassword].
    rewrite !truthy_str by assumption.
    cbn [negb orb JS.strict_eq]. rewrite String.eqb_refl.
    cbn [negb JS.get_length JS.bind].
    destruct (JS.length p <? 6) eqn:E; [apply Z.ltb_lt in E; lia|].
    cbn [JS.call_toLowerCase JS.bind]. rewrite Hnone.
    unfold Api.register_create. cbn [JS.call_trim JS.call_toLowerCase JS.bind].
    unfold Api.save, Api.new_User, Api.validate.
    cbn [Mongo.fullName Mongo.email Mongo.password Req.string_of].
    assert (Hn : Api.set_fullName (JS.trim f) = JS.trim f)
      by (unfold Api.set_fullName; apply trim_idem).
    assert (Hm : Api.set_email (JS.trim (JS.toLowerCase e)) = Api.set_email e)
      by apply set_email_idem.
    rewrite Hn, Hm, (validate_password_ok p Hp), app_nil_r.
    fold errors. destruct errors as [|x xs]; [now elim Herr|].
    reflexivity. }
  cbv zeta. rewrite Hr. split; [reflexivity|].
  cbn [snd]. subst errors. clear Hr.
  unfold Api.validate_fullName, Api.validate_email in *.
  destruct (JS.trim f =? "")%string; destruct (JS.length (JS.trim f) <? 2);
    destruct (Api.set_email e =? "")%string;
    destruct (negb (Regex.test Api.email_regex (Api.set_email e)));
    solve [reflexivity | now elim Herr].
Qed.

Lemma register_schema_failure_is_400_witness :
  let b := Req.mk_body (JS.str "   ") (JS.str "asha at example")
                       (JS.str "secret1") (JS.str "secret1") in
  Api.register_at false None 10 [] [] b
  = ([], Api.failure 400 "Full name is required, Please enter a valid email").
Proof.
  intro b.
  apply (register_schema_failure_is_400 false None 10 [] [] "   "
           "asha at example" "secret1");
    solve [discriminate | reflexivity].
Defined.

(** ** What the stored accounts are *)

Section StoredAccounts.

Import JS Http.

Variable runSettersOnQuery : bool.
Variable NODE_ENV : option string.

Lemma login_frame_schema (now : Z) (u u' : Mongo.user) :
  Outcome.login_frame now u u' -> Outcome.schema_ok u -> Outcome.schema_ok u'.
Proof.
  intros (_ & Hf & He & Hp & _) (Hv & Ht & Hn).
  unfold Outcome.schema_ok, Api.validate in *. rewrite Hf, He, Hp. auto.
Qed.

Lemma Forall2_Forall {A : Type} (R : A -> A -> Prop) (P : A -> Prop)
    (l l' : list A) :
  (forall x y, R x y -> P x -> P y) ->
  Forall2 R l l' -> Forall P l -> Forall P l'.
Proof.
  intros HR H. induction H as [|x y l l' Hxy _ IH]; intro HP; [constructor|].
  inversion HP; subst. constructor; eauto.
Qed.

Lemma api_account_schema (now : Z) (db : Mongo.collection) (f e p : string) :
  6 <= JS.length p ->
  Api.validate_fullName (trim f) = [] ->
  Api.validate_email (Api.set_email e) = [] ->
  Outcome.schema_ok (Outcome.api_account now db f e p).
Proof.
  intros Hp Hf He. unfold Outcome.schema_ok, Api.validate.
  cbn [Outcome.api_account Mongo.fullName Mongo.email Mongo.password].
  rewrite Hf, He, (validate_password_ok p Hp).
  repeat split; [apply trim_idem | apply set_email_idem].
Qed.

Lemma reachable_schema (t : Z) (db : Mongo.collection) :
  Api.reachable runSettersOnQuery NODE_ENV t db ->
  Forall Outcome.schema_ok db /\ NoDup (map Mongo.email db).
Proof.
  induction 1 as [t|t now db req Hr [IHs IHe] Hle].
  - split; constructor.
  - destruct req as [b|b]; cbn [Api.handle].
    + split.
      * unfold Api.register.
        destruct (api_register_at_cases runSettersOnQuery NODE_ENV now db db b)
          as [(-> & _)|(f & e & p & _ & _ & _ & Hp & _ & Hf & He & _ & ->)];
          [exact IHs|].
        cbn [fst]. apply Forall_app. split; [exact IHs|].
        constructor; [now apply api_account_schema | constructor].
      * apply (emails_unique_step runSettersOnQuery NODE_ENV now db db b IHe).
    + split.
      * destruct (api_login_store runSettersOnQuery NODE_ENV now db b)
          as [->|(id & ->)]; [exact IHs|].
        eapply Forall2_Forall; [apply (login_frame_schema now)| |exact IHs].
        apply set_lastLogin_frame.
      * apply (emails_unique_step runSettersOnQuery NODE_ENV now db db b IHe).
Qed.

Lemma logins_by_later (t now : Z) (db : Mongo.collection) :
  t <= now -> Outcome.logins_by t db -> Outcome.logins_by now db.
Proof.
  intros Hle H. eapply Forall_impl; [|exact H]. cbn beta.
  intros u Hu l Hl. specialize (Hu l Hl). lia.
Qed.

Lemma reachable_logins_by (t : Z) (db : Mongo.collection) :
  Api.reachable runSettersOnQuery NODE_ENV t db -> Outcome.logins_by t db.
Proof.
  induction 1 as [t|t now db req Hr IH Hle].
  - constructor.
  - apply (logins_by_later t now) in IH; [|exact Hle].
    destruct req as [b|b]; cbn [Api.handle].
    + destruct (api_register_store runSettersOnQuery NODE_ENV now db b)
        as [->|(f & e & p & ->)]; [exact IH|].
      apply Forall_app. split; [exact IH|].
      constructor; [|constructor]. intros l Hl. discriminate Hl.
    + destruct (api_login_store runSettersOnQuery NODE_ENV now db b)
        as [->|(id & ->)]; [exact IH|].
      clear Hr. induction IH as [|u r Hu Hr' IHr]; simpl; [constructor|].
      destruct (Mongo._id u =? id)%N; constructor; auto.
      intros l Hl. injection Hl as <-. lia.
Qed.

Lemma set_lastLogin_not_earlier (now : Z) (db : Mongo.collection) (id : N) :
  Outcome.logins_by now db ->
  Forall2 Outcome.login_not_earlier db (Mongo.set_lastLogin db id now).
Proof.
  assert (Hsame : forall u, Outcome.login_not_earlier u u).
  { intro u. unfold Outcome.login_not_earlier.
    destruct (Mongo.lastLogin u) as [l|]; [|exact I]. exists l. split; [auto|lia]. }
  assert (Hrefl : forall l, Forall2 Outcome.login_not_earlier l l).
  { induction l; constructor; auto. }
  induction 1 as [|u r Hu _ IH]; simpl; [constructor|].
  destruct (Mongo._id u =? id)%N; constructor; auto.
  unfold Outcome.login_not_earlier. simpl.
  destruct (Mongo.lastLogin u) as [l|] eqn:El; [|exact I].
  exists now. split; [reflexivity | now apply Hu].
Qed.

End StoredAccounts.

(** C4, as the code has it. In the application of [routes/videoRoutes.js],
    on a collection the service has reached with a clock that does not go
    back, a login whose email finds an account and whose password equals the
    stored one is answered 200; the collection it leaves is the one it found
    after the single update that sets the [lastLogin] of that account to the
    clock reading; that [lastLogin] is not before the [createdAt] of the
    account; the user view has the properties [id], [fullName], [email] and
    [lastLogin] and no [password]. *)
Theorem login_sets_lastLogin
    (runSettersOnQuery : bool) (NODE_ENV : option string) (t now : Z)
    (db : Mongo.collection) (b : Req.body) (e p : string) (u : Mongo.user) :
  Api.reachable runSettersOnQuery NODE_ENV t db -> t <= now ->
  Req.email b = JS.str e -> Req.password b = JS.str p ->
  e <> "" -> p <> "" ->
  Api.findOne runSettersOnQuery db (JS.toLowerCase e) = Some u ->
  Mongo.password u = p ->
  let r := Api.login runSettersOnQuery NODE_ENV now db b in
  Http.status (snd r) = 200
  /\ fst r = Mongo.set_lastLogin db (Mongo._id u) now
  /\ Api.findOne runSettersOnQuery (fst r) (JS.toLowerCase e)
     = Some (Outcome.logged_in u now)
  /\ Mongo.lastLogin (Outcome.logged_in u now) = Some now
  /\ Mongo.createdAt (Outcome.logged_in u now) <= now
  /\ exists view,
       Http.user_view (snd r) = Some view
       /\ Http.keys view = ["id"; "fullName"; "email"; "lastLogin"]
       /\ Http.field "password" view = None
       /\ Http.field "lastLogin" view = Some (Http.JDate now).
Proof.
  intros Hreach Hle He Hp Hne Hnp Hfind Hpw. cbv zeta.
  assert (Hin : In u db).
  { unfold Api.findOne, Mongo.findOne_email in Hfind.
    apply find_some in Hfind. tauto. }
  assert (Hvalid : Api.validate u = []).
  { destruct (reachable_schema _ _ _ _ Hreach) as [Hs _].
    rewrite Forall_forall in Hs. apply (Hs u Hin). }
  rewrite (api_login_present _ NODE_ENV now db b e p) by assumption.
  rewrite Hfind, Hpw, String.eqb_refl, Hvalid. cbn [fst snd Http.status].
  apply reachable_well_timed in Hreach.
  destruct (well_timed_later t now db Hle Hreach) as [Hnd Hall].
  split; [reflexivity|]. split; [reflexivity|].
  split; [unfold Api.findOne in *; now apply find_set_lastLogin|].
  split; [reflexivity|]. split.
  - rewrite Forall_forall in Hall. destruct (Hall u Hin) as [Hc _].
    exact Hc.
  - eexists. repeat split.
Qed.

Lemma login_sets_lastLogin_witness :
  let reg := Req.mk_body (JS.str "Ravi K") (JS.str "Ravi@Example.com")
                         (JS.str "s3cret!") (JS.str "s3cret!") in
  let b := Req.mk_body JS.undefined (JS.str "RAVI@example.com")
                       (JS.str "s3cret!") JS.undefined in
  let db := fst (Api.handle true None 10 [] (Api.PostRegister reg)) in
  let r := Api.login true None 25 db b in
  Http.status (snd r) = 200
  /\ map Mongo.lastLogin (fst r) = [Some 25]
  /\ map Mongo.createdAt (fst r) = [10].
Proof.
  intros reg b db r.
  assert (Hreach : Api.reachable true None 10 db).
  { apply (Api.reach_step true None 0 10 [] (Api.PostRegister reg)).
    - apply Api.reach_empty.
    - lia. }
  destruct (login_sets_lastLogin true None 10 25 db b "RAVI@example.com"
              "s3cret!"
              (Mongo.mk_user 1 "Ravi K" "ravi@example.com" "s3cret!" 10 None)
              Hreach)
    as (Hs & Hst & _); try reflexivity; try discriminate; try lia.
  split; [exact Hs|]. fold r in Hst. rewrite Hst. split; reflexivity.
Defined.

(** C4, as stated, fails on [server.js]: a login with the stored email and
    password is answered 200 and writes nothing; the account has no
    [lastLogin] after it. *)
Lemma legacy_login_writes_nothing :
  let u := Mongo.mk_user 1 "Ravi K" "ravi@example.com" "s3cret!" 10 None in
  let b := Req.mk_body JS.undefined (JS.str "ravi@example.com")
                       (JS.str "s3cret!") JS.undefined in
  let r := Legacy.login [u] b in
  Http.status (snd r) = 200
  /\ fst r = [u]
  /\ map Mongo.lastLogin (fst r) = [None]
  /\ (exists view, Http.user_view (snd r) = Some view
                   /\ Http.field "lastLogin" view = None).
Proof.
  cbv zeta. repeat split. eexists. split; reflexivity.
Qed.

(** X9. Every account of a collection the application of
    [routes/videoRoutes.js] has reached passes the validators of the
    schema, has a trimmed name and a lowercase, trimmed email; no two
    accounts share an email or an identifier. *)
Theorem reachable_accounts_satisfy_schema
    (runSettersOnQuery : bool) (NODE_ENV : option string) (t : Z)
    (db : Mongo.collection) :
  Api.reachable runSettersOnQuery NODE_ENV t db ->
  Forall Outcome.schema_ok db
  /\ NoDup (map Mongo.email db)
  /\ NoDup (map Mongo._id db).
Proof.
  intro H. destruct (reachable_schema _ _ _ _ H) as [Hs He].
  split; [exact Hs|]. split; [exact He|].
  apply (reachable_well_timed _ _ _ _ H).
Qed.

Lemma reachable_accounts_satisfy_schema_witness :
  let reg := Req.mk_body (JS.str "  Ravi K ") (JS.str " Ravi@Example.com ")
                         (JS.str "s3cret!") (JS.str "s3cret!") in
  let db := fst (Api.handle false None 10 [] (Api.PostRegister reg)) in
  Forall Outcome.schema_ok db
  /\ NoDup (map Mongo.email db)
  /\ NoDup (map Mongo._id db).
Proof.
  intros reg db.
  apply (reachable_accounts_satisfy_schema false None 10 db).
  apply (Api.reach_step false None 0 10 [] (Api.PostRegister reg)).
  - apply Api.reach_empty.
  - lia.
Defined.

(** X10. On a collection the application of [routes/videoRoutes.js] has
    reached, under a clock that does not go back, a login moves no
    [lastLogin] backwards and unsets none. *)
Theorem login_never_moves_lastLogin_back
    (runSettersOnQuery : bool) (NODE_ENV : option string) (t now : Z)
    (db : Mongo.collection) (b : Req.body) :
  Api.reachable runSettersOnQuery NODE_ENV t db -> t <= now ->
  Forall2 Outcome.login_not_earlier db
          (fst (Api.login runSettersOnQuery NODE_ENV now db b)).
Proof.
  intros Hr Hle.
  apply reachable_logins_by in Hr. apply (logins_by_later t now) in Hr; [|exact Hle].
  destruct (api_login_store runSettersOnQuery NODE_ENV now db b)
    as [->|(id & ->)].
  - clear Hr. induction db as [|u r IH]; constructor; auto.
    unfold Outcome.login_not_earlier.
    destruct (Mongo.lastLogin u) as [l|]; [|exact I]. exists l. split; [auto|lia].
  - now apply set_lastLogin_not_earlier.
Qed.

Lemma login_never_moves_lastLogin_back_witness :
  let reg := Req.mk_body (JS.str "Ravi K") (JS.str "ravi@example.com")
                         (JS.str "s3cret!") (JS.str "s3cret!") in
  let db1 := fst (Api.handle true None 10 [] (Api.PostRegister reg)) in
  let db2 := fst (Api.handle true None 20 db1 (Api.PostLogin reg)) in
  Forall2 Outcome.login_not_earlier db2 (fst (Api.login true None 30 db2 reg)).
Proof.
  intros reg db1 db2.
  apply (login_never_moves_lastLogin_back true None 20 30 db2 reg); [|lia].
  apply (Api.reach_step true None 10 20 db1 (Api.PostLogin reg)); [|lia].
  apply (Api.reach_step true None 0 10 [] (Api.PostRegister reg)); [|lia].
  apply Api.reach_empty.
Defined.

(** ** Counting the accounts *)

Section Counting.

Import JS Http.

Variable runSettersOnQuery : bool.
Variable NODE_ENV : option string.

Lemma set_lastLogin_length (db : Mongo.collection) (id : N) (t : Z) :
  List.length (Mongo.set_lastLogin db id t) = List.length db.
Proof.
  rewrite <- (length_map Mongo._id), set_lastLogin_ids. apply length_map.
Qed.

(** One request adds one account when it is answered 201 and none
    otherwise. *)
Lemma handle_length (now : Z) (db : Mongo.collection) (req : Api.request) :
  let r := Api.handle runSettersOnQuery NODE_ENV now db req in
  Z.of_nat (List.length (fst r))
  = Z.of_nat (List.length db) + (if status (snd r) =? 201 then 1 else 0).
Proof.
  cbv zeta. destruct req as [b|b]; cbn [Api.handle].
  - unfold Api.register.
    destruct (api_register_at_cases runSettersOnQuery NODE_ENV now db db b)
      as [(-> & -> & _)|(f & e & p & _ & _ & _ & _ & _ & _ & _ & _ & ->)].
    + simpl. lia.
    + cbn [fst snd Outcome.api_created status]. rewrite length_app. simpl. lia.
  - destruct (api_login_cases runSettersOnQuery NODE_ENV now db b)
      as [(-> & [->| ->] & _)|[(e & u & _ & _ & _ & _ & _ & _ & ->)
                             |(e & u & _ & _ & _ & _ & _ & _ & -> & -> & _)]];
      rewrite ?set_lastLogin_length; simpl; lia.
Qed.

Lemma run_length (trace : list (Z * Api.request)) (db : Mongo.collection) :
  Z.of_nat (List.length (fst (Api.run runSettersOnQuery NODE_ENV db trace)))
  = Z.of_nat (List.length db)
    + Outcome.created_count (snd (Api.run runSettersOnQuery NODE_ENV db trace)).
Proof.
  revert db. induction trace as [|[now req] rest IH]; intro db.
  - unfold Outcome.created_count. simpl. lia.
  - cbn [Api.run].
    pose proof (handle_length now db req) as Hh. cbv zeta in Hh.
    destruct (Api.handle runSettersOnQuery NODE_ENV now db req) as [db1 r].
    specialize (IH db1).
    destruct (Api.run runSettersOnQuery NODE_ENV db1 rest) as [db2 rs].
    cbn [fst snd] in *. rewrite IH, Hh.
    unfold Outcome.created_count. cbn [filter].
    destruct (status r =? 201); cbn [List.length]; lia.
Qed.

End Counting.

(** X11. After any run of registrations and logins on the empty collection,
    the [userCount] of the database test route is the number of requests
    that were answered 201, and its [sampleData] is "No users yet" exactly
    when there was none. *)
Theorem test_db_counts_created_accounts
    (runSettersOnQuery : bool) (NODE_ENV : option string)
    (conn : Api.connection) (trace : list (Z * Api.request)) :
  let out := Api.run runSettersOnQuery NODE_ENV [] trace in
  let r := Api.test_db conn (fst out) in
  Http.status r = 200
  /\ Http.field "userCount" (Http.body r)
     = Some (Http.JNum (Outcome.created_count (snd out)))
  /\ Http.field "sampleData" (Http.body r)
     = Some (Http.JStr (if Outcome.created_count (snd out) =? 0
                        then "No users yet" else "Data exists")).
Proof.
  cbv zeta.
  pose proof (run_length runSettersOnQuery NODE_ENV trace []) as H.
  cbn [List.length] in H. rewrite Z.add_0_l in H.
  unfold Api.test_db, Mongo.countDocuments. rewrite H.
  split; [reflexivity|]. split; [reflexivity|]. cbn.
  assert (0 <= Outcome.created_count
                 (snd (Api.run runSettersOnQuery NODE_ENV [] trace)))
    by (unfold Outcome.created_count; lia).
  destruct (Outcome.created_count _ =? 0) eqn:E0;
    destruct (Outcome.created_count _ >? 0) eqn:E1; try reflexivity.
  - apply Z.eqb_eq in E0. apply Z.gtb_lt in E1. lia.
  - apply Z.eqb_neq in E0. rewrite Z.gtb_ltb in E1. apply Z.ltb_ge in E1. lia.
Qed.

(** ** Registration followed by login *)

Section RoundTrip.

Import JS Http.

Lemma toLowerCase_empty (s : string) : toLowerCase s = "" -> s = "".
Proof. destruct s; simpl; [reflexivity | discriminate]. Qed.

Lemma lower_same_empty (s t : string) :
  toLowerCase s = toLowerCase t -> (s =? "")%string = (t =? "")%string.
Proof.
  intro H. destruct s, t; simpl in *; try reflexivity; discriminate.
Qed.

Lemma find_snoc (db : Mongo.collection) (u : Mongo.user) (key : string) :
  Outcome.taken db key = false -> Mongo.email u = key ->
  Mongo.findOne_email (db ++ [u])%list key = Some u.
Proof.
  unfold Mongo.findOne_email, Outcome.taken.
  induction db as [|v r IH]; simpl; intros Ht Hu.
  - subst key. now rewrite String.eqb_refl.
  - apply orb_false_iff in Ht. destruct Ht as [Hv Hr]. rewrite Hv. auto.
Qed.

Lemma length_lower (s : string) :
  String.length (toLowerCase s) = String.length s.
Proof. induction s; simpl; congruence. Qed.

Lemma trimStart_length (s : string) :
  (String.length (trimStart s) <= String.length s)%nat.
Proof.
  induction s as [|c r IH]; simpl; [lia|].
  destruct (is_space c); simpl; lia.
Qed.

Lemma trimStart_fixed (s : string) :
  String.length (trimStart s) = String.length s -> trimStart s = s.
Proof.
  destruct s as [|c r]; simpl; [reflexivity|].
  destruct (is_space c); [|reflexivity].
  pose proof (trimStart_length r). lia.
Qed.

Lemma trimEnd_length (s : string) :
  (String.length (trimEnd s) <= String.length s)%nat.
Proof.
  induction s as [|c r IH]; simpl; [lia|].
  destruct (trimEnd r); [destruct (is_space c)|]; simpl in *; lia.
Qed.

Lemma trimEnd_fixed (s : string) :
  String.length (trimEnd s) = String.length s -> trimEnd s = s.
Proof.
  induction s as [|c r IH]; simpl; [reflexivity|].
  pose proof (trimEnd_length r) as Hle.
  destruct (trimEnd r) as [|d t] eqn:E.
  - destruct (is_space c); simpl; [discriminate|].
    intro H. destruct r; [reflexivity | simpl in H; discriminate].
  - simpl in *. intro H. rewrite IH; [reflexivity | lia].
Qed.

(** An email whose lowercase form is trimmed is trimmed. *)
Lemma trim_lower_fixed (e : string) :
  trim (toLowerCase e) = toLowerCase e -> trim e = e.
Proof.
  intro H. rewrite trim_lower in H.
  assert (Hlen : String.length (trim e) = String.length e).
  { rewrite <- (length_lower (trim e)), H. apply length_lower. }
  unfold trim in *.
  pose proof (trimEnd_length (trimStart e)).
  pose proof (trimStart_length e).
  assert (Hs : trimStart e = e) by (apply trimStart_fixed; lia).
  rewrite Hs in *. now apply trimEnd_fixed.
Qed.

End RoundTrip.

(** X12. In the application of [routes/videoRoutes.js], a valid
    registration on a collection without its email, followed by a login
    with the same password and an email equal to the registered one after
    lowercasing, is answered 201 and then 200, and the login returns the
    [id], [fullName] and [email] the registration returned: when the
    Mongoose in use runs setters on query filters, or the registered email
    has no white space around it. *)
Theorem register_then_login_succeeds
    (runSettersOnQuery : bool) (NODE_ENV : option string) (now1 now2 : Z)
    (db : Mongo.collection) (b b' : Req.body) (e e' p : string) :
  Outcome.valid_registration b = true ->
  Req.email b = JS.str e -> Req.password b = JS.str p ->
  (forall u, In u db -> Api.set_email (Mongo.email u) <> Api.set_email e) ->
  Req.email b' = JS.str e' -> Req.password b' = JS.str p ->
  JS.toLowerCase e' = JS.toLowerCase e ->
  runSettersOnQuery = true \/ JS.trim e = e ->
  let r1 := Api.register runSettersOnQuery NODE_ENV now1 db b in
  let r2 := Api.login runSettersOnQuery NODE_ENV now2 (fst r1) b' in
  Http.status (snd r1) = 201
  /\ Http.status (snd r2) = 200
  /\ Outcome.identity_of (snd r2) = Outcome.identity_of (snd r1).
Proof.
  intros Hv He Hp Hfresh He' Hp' Hlow Hq.
  apply valid_registration_inv in Hv.
  destruct Hv as (f & e0 & p0 & -> & Hf & Hne & Hlen & Hvf & Hve).
  simpl in He, Hp. injection He as ->. injection Hp as ->.
  assert (Hnp : p <> "").
  { intros ->. unfold JS.length in Hlen. simpl in Hlen. lia. }
  assert (Hne' : e' <> "").
  { intros ->. simpl in Hlow. symmetry in Hlow.
    now apply toLowerCase_empty in Hlow. }
  assert (Hnone : Api.findOne runSettersOnQuery db (JS.toLowerCase e) = None).
  { unfold Api.findOne. apply find_none_not_taken, not_taken_fresh.
    intros u Hin Heq. apply (Hfresh u Hin). rewrite Heq.
    destruct runSettersOnQuery.
    - now rewrite set_email_idem, set_email_lower.
    - apply set_email_lower. }
  assert (Hfree : Outcome.taken db (Api.set_email e) = false).
  { apply not_taken_fresh. intros u Hin Heq. apply (Hfresh u Hin).
    rewrite Heq. apply set_email_idem. }
  set (u1 := Outcome.api_account now1 db f e p).
  assert (Hr1 : Api.register runSettersOnQuery NODE_ENV now1 db
                  (Req.mk_body (JS.str f) (JS.str e) (JS.str p) (JS.str p))
                = ((db ++ [u1])%list, Outcome.api_created u1)).
  { unfold Api.register.
    rewrite (api_register_at_valid _ NODE_ENV now1 db db f e p) by assumption.
    now rewrite Hnone, Hfree. }
  assert (Hkey : (if runSettersOnQuery
                  then Api.set_email (JS.toLowerCase e')
                  else JS.toLowerCase e') = Api.set_email e).
  { rewrite Hlow. destruct runSettersOnQuery; [apply set_email_lower|].
    destruct Hq as [Hq|Hq]; [discriminate|].
    unfold Api.set_email. now rewrite trim_lower, Hq. }
  assert (Hfind : Api.findOne runSettersOnQuery (db ++ [u1])%list
                    (JS.toLowerCase e') = Some u1).
  { unfold Api.findOne. rewrite Hkey. now apply find_snoc. }
  cbv zeta. rewrite Hr1. cbn [fst snd].
  rewrite (api_login_present _ NODE_ENV now2 _ b' e' p) by assumption.
  assert (Hvalid : Api.validate u1 = []).
  { unfold Api.set_fullName in Hvf.
    apply (api_account_schema now1 db f e p Hlen Hvf Hve). }
  rewrite Hfind, Hvalid. cbn [u1 Outcome.api_account Mongo.password].
  rewrite String.eqb_refl. repeat split.
Qed.

Lemma register_then_login_succeeds_witness :
  let b := Req.mk_body (JS.str "Asha Rao") (JS.str " Asha@Example.com")
                       (JS.str "secret1") (JS.str "secret1") in
  let b' := Req.mk_body JS.undefined (JS.str " ASHA@example.com")
                        (JS.str "secret1") JS.undefined in
  let r1 := Api.register true None 10 [] b in
  let r2 := Api.login true None 20 (fst r1) b' in
  Http.status (snd r1) = 201
  /\ Http.status (snd r2) = 200
  /\ Outcome.identity_of (snd r2) = Outcome.identity_of (snd r1).
Proof.
  intros b b'.
  apply (register_then_login_succeeds true None 10 20 [] b b'
           " Asha@Example.com" " ASHA@example.com" "secret1");
    try reflexivity.
  - intros u [].
  - left. reflexivity.
Defined.



(** ** The email up to case *)

(** X15. The handlers of the application of [routes/videoRoutes.js] read
    the email only through its lowercase form: two requests that differ
    only in the case of the email get the same answer and leave the same
    collection, for the registration and for the login. *)
Theorem api_handlers_ignore_email_case
    (runSettersOnQuery : bool) (NODE_ENV : option string) (now : Z)
    (db0 db : Mongo.collection) (b : Req.body) (e e' : string) :
  JS.toLowerCase e = JS.toLowerCase e' ->
  Api.register_at runSettersOnQuery NODE_ENV now db0 db
    (Outcome.with_email b (JS.str e))
  = Api.register_at runSettersOnQuery NODE_ENV now db0 db
      (Outcome.with_email b (JS.str e'))
  /\ Api.login runSettersOnQuery NODE_ENV now db
       (Outcome.with_email b (JS.str e))
     = Api.login runSettersOnQuery NODE_ENV now db
         (Outcome.with_email b (JS.str e')).
Proof.
  intro Hlow. pose proof (lower_same_empty e e' Hlow) as Hemp.
  destruct b as [f e0 p c]. unfold Outcome.with_email.
  cbn [Req.fullName Req.email Req.password Req.confirmPassword].
  split.
  - unfold Api.register_at, Api.register_try, Api.register_create.
    cbn [Req.fullName Req.email Req.password Req.confirmPassword JS.truthy
         JS.call_toLowerCase].
    rewrite Hemp.
    destruct f as [| |f], p as [| |p]; cbn [JS.get_length JS.call_trim JS.bind];
      rewrite ?Hlow; reflexivity.
  - unfold Api.login, Api.login_try.
    cbn [Req.email Req.password JS.truthy JS.call_toLowerCase JS.bind].
    now rewrite Hemp, Hlow.
Qed.

Lemma api_handlers_ignore_email_case_witness :
  let u := Mongo.mk_user 1 "Ravi K" "ravi@example.com" "s3cret!" 10 None in
  let b := Req.mk_body JS.undefined JS.undefined (JS.str "s3cret!")
                       JS.undefined in
  Api.login true None 20 [u] (Outcome.with_email b (JS.str "RAVI@Example.COM"))
  = Api.login true None 20 [u] (Outcome.with_email b (JS.str "ravi@example.com")).
Proof.
  intros u b.
  apply (api_handlers_ignore_email_case true None 20 [u] [u] b
           "RAVI@Example.COM" "ravi@example.com").
  reflexivity.
Defined.

(** X16. In the application of [routes/videoRoutes.js], a valid
    registration whose email, lowercased and trimmed, is the email of an
    account of the collection is a conflict on every collection, whatever
    the case and the surrounding white space of the email sent and whatever
    the existence query saw: it is answered 400 with one of the two
    conflict messages and stores nothing. *)
Theorem register_taken_email_conflicts
    (runSettersOnQuery : bool) (NODE_ENV : option string) (now : Z)
    (db0 db : Mongo.collection) (b : Req.body) (e : string) :
  Outcome.valid_registration b = true ->
  Req.email b = JS.str e ->
  Outcome.taken db (Api.set_email e) = true ->
  let r := Api.register_at runSettersOnQuery NODE_ENV now db0 db b in
  fst r = db
  /\ Http.status (snd r) = 400
  /\ Outcome.kind_of (snd r) = Outcome.ConflictError.
Proof.
  intros Hv He Ht.
  apply valid_registration_inv in Hv.
  destruct Hv as (f & e0 & p & -> & Hf & Hne & Hlen & Hvf & Hve).
  simpl in He. injection He as ->. cbv zeta.
  rewrite (api_register_at_valid _ NODE_ENV now db0 db f e p) by assumption.
  rewrite Ht.
  destruct (Api.findOne runSettersOnQuery db0 (JS.toLowerCase e));
    repeat split.
Qed.

Lemma register_taken_email_conflicts_witness :
  let u := Mongo.mk_user 1 "Ravi K" "ravi@example.com" "s3cret!" 10 None in
  let b := Req.mk_body (JS.str "Ravi") (JS.str "  RAVI@Example.com ")
                       (JS.str "another1") (JS.str "another1") in
  let r := Api.register_at false None 20 [u] [u] b in
  fst r = [u]
  /\ Http.status (snd r) = 400
  /\ Outcome.kind_of (snd r) = Outcome.ConflictError.
Proof.
  intros u b.
  apply (register_taken_email_conflicts false None 20 [u] [u] b
           "  RAVI@Example.com "); reflexivity.
Defined.

(** ** Content lookup *)

(** X18. The answer of the video route does not depend on the order in
    which the collection holds its documents, identifiers being unique. *)
Theorem get_video_ignores_order (db db' : list VideoRoutes.video) :
  Permutation db db' ->
  NoDup (map VideoRoutes._id db) ->
  VideoRoutes.get_video db = VideoRoutes.get_video db'.
Proof.
  intros Hp Hnd. unfold VideoRoutes.get_video. f_equal. f_equal.
  destruct (VideoRoutes.findOne_latest db) as [m|] eqn:E;
    destruct (VideoRoutes.findOne_latest db') as [m'|] eqn:E'.
  - apply findOne_latest_max in E, E'.
    destruct E as [Hin Hmax], E' as [Hin' Hmax'].
    assert (Hm' : In m' db) by (eapply Permutation_in; [symmetry|]; eauto).
    assert (Hm : In m db') by (eapply Permutation_in; eauto).
    f_equal. apply (NoDup_map_eq db); auto.
    specialize (Hmax m' Hm'). specialize (Hmax' m Hm). lia.
  - apply findOne_latest_none in E'. subst db'.
    symmetry in Hp. apply Permutation_nil in Hp. subst db. discriminate E.
  - apply findOne_latest_none in E. subst db.
    apply Permutation_nil in Hp. subst db'. discriminate E'.
  - reflexivity.
Qed.

Lemma get_video_ignores_order_witness :
  let v1 := VideoRoutes.mk_video 7 (Some "Lesson 1") None None in
  let v2 := VideoRoutes.mk_video 9 (Some "Lesson 2") (Some "https://v/2") None in
  let v3 := VideoRoutes.mk_video 3 None None (Some 0) in
  VideoRoutes.get_video [v1; v2; v3] = VideoRoutes.get_video [v3; v1; v2].
Proof.
  intros v1 v2 v3.
  apply (get_video_ignores_order [v1; v2; v3] [v3; v1; v2]).
  - apply Permutation_sym. apply (Permutation_cons_app [v1; v2] [] v3).
    simpl. apply Permutation_refl.
  - repeat constructor; simpl; intuition discriminate.
Defined.

(** ** Status labels *)

(** X19. For every raw connection state the label of the test route of
    [server.js], lowercased, is the label [getDBStatusText] gives; the two
    health routes send the same [status], "Healthy" exactly when the state
    is 1, and [server.js] sends "Connected" exactly then, beside the raw
    state. *)
Theorem status_labels_agree (st : Z) :
  JS.toLowerCase (Legacy.statusText st) = Api.getDBStatusText st
  /\ forall (uri_set : bool) (time : string) (uptime server : Http.json)
            (host name environment : string),
       let lh := Legacy.health st time uptime in
       let ah := Api.health (Api.mk_connection st host name) server
                            environment in
       Http.field "database" (Http.body (Legacy.test st uri_set time))
       = Some (Http.JStr (Legacy.statusText st))
       /\ Http.field "status" (Http.body lh) = Http.field "status" (Http.body ah)
       /\ (Http.field "status" (Http.body lh) = Some (Http.JStr "Healthy")
           <-> st = 1)
       /\ (Http.field "database" (Http.body lh) = Some (Http.JStr "Connected")
           <-> st = 1)
       /\ Http.field "databaseStatus" (Http.body lh) = Some (Http.JNum st).
Proof.
  split.
  - destruct st as [|[[p|p|]|[p|p|]|]|p]; reflexivity.
  - intros. cbv zeta. cbn.
    split; [reflexivity|]. split; [reflexivity|].
    destruct (st =? 1) eqn:E.
    + apply Z.eqb_eq in E. repeat split; auto.
    + apply Z.eqb_neq in E. repeat split; intro H;
        solve [discriminate H | now elim E].
Qed.

Lemma status_labels_agree_witness :
  Http.field "status" (Http.body (Legacy.health 1 "t" Http.JNull))
  = Some (Http.JStr "Healthy").
Proof.
  destruct (status_labels_agree 1) as [_ H].
  apply (H true "t" Http.JNull Http.JNull "h" "n" "production").
  reflexivity.
Defined.
